(** * The iommufd container backend (backends/iommufd.c)

    A shallow embedding of the shared /dev/iommu handle and of the request
    wrappers built on it.  The C functions become functions in a small state
    monad over the part of the process the file touches: [errno], the table
    of open descriptors and the sequence of system calls and diagnostics
    issued so far.  The kernel (and the other collaborators reached through
    a call) is an oracle that may answer differently on every call.

    Each function body of [iommufd_backend_connect] and
    [iommufd_backend_disconnect] runs with [be->lock] held, so a body is one
    atomic step and any concurrent execution is one of the interleavings of
    whole bodies that the sequential model below runs. *)

From Stdlib Require Import ZArith List String Bool Lia.
Import ListNotations.

#[local] Open Scope string_scope.
#[local] Open Scope list_scope.
#[local] Open Scope Z_scope.

(** ** Machine integers *)

Module CInt.

Definition UINT32_MAX : Z := 4294967295.

(** Conversion to [uint32_t], [uint64_t], [int] and [int64_t]. *)
Definition u32 (x : Z) : Z := x mod 2 ^ 32.
Definition u64 (x : Z) : Z := x mod 2 ^ 64.
Definition s32 (x : Z) : Z := (x + 2 ^ 31) mod 2 ^ 32 - 2 ^ 31.
Definition s64 (x : Z) : Z := (x + 2 ^ 63) mod 2 ^ 64 - 2 ^ 63.

(** Unary minus on [int]. *)
Definition int_neg (x : Z) : Z := s32 (- x).

(** The C truth value of a scalar and its negation [!x]. *)
Definition c_true (x : Z) : bool := negb (x =? 0).
Definition c_not (x : Z) : bool := x =? 0.

(** The values of a [uint32_t]. *)
Definition in_u32 (x : Z) : Prop := 0 <= x <= UINT32_MAX.

End CInt.
Import CInt.

(** ** The kernel interface

    One constructor per request code used by the file; [payload] is the
    request record exchanged with each. *)

Inductive cmd : Set :=
| IOMMU_IOAS_ALLOC
| IOMMU_DESTROY
| IOMMU_IOAS_UNMAP
| IOMMU_IOAS_MAP
| IOMMU_IOAS_COPY
| IOMMU_ALLOC_HWPT
| IOMMU_ADD_HWPT_EVENT
| IOMMU_ALLOC_PASID
| IOMMU_FREE_PASID.

Module iommu_ioas_alloc.
Record t := mk { size : Z; flags : Z; out_ioas_id : Z }.
End iommu_ioas_alloc.

Module iommu_destroy.
Record t := mk { size : Z; id : Z }.
End iommu_destroy.

Module iommu_ioas_unmap.
Record t := mk { size : Z; ioas_id : Z; iova : Z; length : Z }.
End iommu_ioas_unmap.

Module iommu_ioas_map.
Record t := mk {
    size : Z; flags : Z; ioas_id : Z; __reserved : Z;
    user_va : Z; length : Z; iova : Z }.
Definition set_flags (f : Z) (r : t) : t :=
    mk (size r) f (ioas_id r) (__reserved r) (user_va r) (length r) (iova r).
End iommu_ioas_map.

Module iommu_ioas_copy.
Record t := mk {
    size : Z; flags : Z; dst_ioas_id : Z; src_ioas_id : Z;
    length : Z; dst_iova : Z; src_iova : Z }.
Definition set_flags (f : Z) (r : t) : t :=
    mk (size r) f (dst_ioas_id r) (src_ioas_id r) (length r)
       (dst_iova r) (src_iova r).
End iommu_ioas_copy.

Module iommu_alloc_hwpt.
Record t := mk {
    size : Z; flags : Z; dev_id : Z; hwpt_type : Z; parent_id : Z;
    data_type : Z; data_len : Z; reserved : Z; data_uptr : Z;
    out_hwpt_id : Z }.
End iommu_alloc_hwpt.

Module iommu_add_hwpt_event.
Record t := mk {
    size : Z; flags : Z; type : Z; dev_id : Z; hwpt_id : Z;
    eventfd : Z; out_fd : Z }.
End iommu_add_hwpt_event.

Module iommu_alloc_pasid.
Record t := mk {
    size : Z; flags : Z; range_min : Z; range_max : Z; pasid : Z }.
End iommu_alloc_pasid.

Module iommu_free_pasid.
Record t := mk { size : Z; flags : Z; pasid : Z }.
End iommu_free_pasid.

Definition payload (c : cmd) : Type :=
  match c with
  | IOMMU_IOAS_ALLOC => iommu_ioas_alloc.t
  | IOMMU_DESTROY => iommu_destroy.t
  | IOMMU_IOAS_UNMAP => iommu_ioas_unmap.t
  | IOMMU_IOAS_MAP => iommu_ioas_map.t
  | IOMMU_IOAS_COPY => iommu_ioas_copy.t
  | IOMMU_ALLOC_HWPT => iommu_alloc_hwpt.t
  | IOMMU_ADD_HWPT_EVENT => iommu_add_hwpt_event.t
  | IOMMU_ALLOC_PASID => iommu_alloc_pasid.t
  | IOMMU_FREE_PASID => iommu_free_pasid.t
  end.

(** The constants of the system and kernel headers that the file uses but
    does not define: they are parameters of the development. *)
Class Platform : Type := {
  O_RDWR : Z;
  E2BIG : Z;
  EBADF : Z;
  IOMMU_IOAS_MAP_FIXED_IOVA : Z;
  IOMMU_IOAS_MAP_WRITEABLE : Z;
  IOMMU_IOAS_MAP_READABLE : Z;
  IOMMU_ALLOC_PASID_IDENTICAL : Z;
  IOMMU_HWPT_EVENT_FAULT : Z;
  sizeof : cmd -> Z
}.

(** A flag [f] is set in the word [x] when all its bits are. *)
Definition flag_set (f x : Z) : Prop := Z.land x f = f.

(** What the claims about flags need of the header: the writable bit is a
    nonempty mask disjoint from the readable and fixed-IOVA ones. *)
Definition map_flags_independent `{Platform} : Prop :=
  IOMMU_IOAS_MAP_WRITEABLE <> 0 /\
  Z.land IOMMU_IOAS_MAP_READABLE IOMMU_IOAS_MAP_WRITEABLE = 0 /\
  Z.land IOMMU_IOAS_MAP_FIXED_IOVA IOMMU_IOAS_MAP_WRITEABLE = 0.

(** ** The process and its environment *)

Inductive event : Type :=
| EvOpen (path : string) (flags : Z) (res : Z)
| EvClose (fd : Z)
| EvIoctl (fd : Z) (c : cmd) (arg : payload c) (res : Z)
| EvErrorReport (fmt : string) (args : list Z)
| EvTrace (point : string) (args : list Z).

(** [Error] objects stored through an [Error **errp]. *)
Inductive Error : Type :=
| error_setg (msg : string)
| error_setg_errno (os_errno : Z) (msg : string)
| error_prepend (prefix : string) (e : Error).

(** The answers of the environment.  Each may depend on everything that
    happened before (the log), and gives the value [errno] has after the
    call. *)
Record Kernel : Type := {
  (** [qemu_open_old(path, flags)]: a descriptor, or a negative value. *)
  k_open : list event -> string -> Z -> Z * Z;
  (** [ioctl(fd, c, &arg)]: the status, and the record as the kernel left it. *)
  k_ioctl : list event -> Z -> forall c : cmd, payload c -> Z * Z * payload c;
  (** [monitor_fd_param(monitor_cur(), str, errp)]. *)
  k_monitor_fd : list event -> string -> Z * option Error;
  (** [error_report(...)] writes to the standard error stream or to the
      monitor: the value this leaves in [errno], from the one it found. *)
  k_report : list event -> Z -> Z
}.

(** The process: [errno], the descriptors that are open, and what was
    called and reported so far, oldest first. *)
Record World : Type := mkWorld {
  w_errno : Z;
  w_fds : list Z;
  w_log : list event
}.

Definition M (A : Type) : Type := World -> A * World.

Definition pure {A : Type} (a : A) : M A := fun w => (a, w).

Definition bind {A B : Type} (m : M A) (k : A -> M B) : M B :=
  fun w => k (fst (m w)) (snd (m w)).

Declare Scope io_scope.
Delimit Scope io_scope with io.
Notation "x <- m ;; k" := (bind m (fun x => k))
  (at level 61, m at next level, right associativity) : io_scope.
Notation "m ;; k" := (bind m (fun _ => k))
  (at level 61, right associativity) : io_scope.
#[local] Open Scope io_scope.

Definition emit (e : event) : M unit :=
  fun w => (tt, mkWorld (w_errno w) (w_fds w) (w_log w ++ [e])).

Definition get_errno : M Z := fun w => (w_errno w, w).

(** The tracing facility only extends the log. *)
Definition trace (point : string) (args : list Z) : M unit :=
  emit (EvTrace point args).

(** The reporting facility extends the log, and its output may change
    [errno]. *)
Definition error_report (K : Kernel) (fmt : string) (args : list Z)
  : M unit :=
  fun w =>
    (tt, mkWorld (k_report K (w_log w) (w_errno w)) (w_fds w)
                 (w_log w ++ [EvErrorReport fmt args])).

Definition fd_open (fd : Z) (w : World) : bool :=
  existsb (Z.eqb fd) (w_fds w).

Section Syscalls.
Context {P : Platform} (K : Kernel).

Definition qemu_open_old (path : string) (flags : Z) : M Z :=
  fun w =>
    let '(res, e) := k_open K (w_log w) path flags in
    (res, mkWorld e
                  (if res <? 0 then w_fds w else res :: w_fds w)
                  (w_log w ++ [EvOpen path flags res])).

(** [close(fd)]; no caller in the file looks at its result.  Closing what
    is not an open descriptor releases nothing and sets [errno]. *)
Definition close (fd : Z) : M unit :=
  fun w =>
    (tt, mkWorld (if fd_open fd w then w_errno w else EBADF)
                 (List.remove Z.eq_dec fd (w_fds w))
                 (w_log w ++ [EvClose fd])).

Definition ioctl (fd : Z) (c : cmd) (arg : payload c) : M (Z * payload c) :=
  fun w =>
    let '(res, e, arg') := k_ioctl K (w_log w) fd c arg in
    ((res, arg'), mkWorld e (w_fds w) (w_log w ++ [EvIoctl fd c arg res])).

Definition monitor_fd_param (str : string) : M (Z * option Error) :=
  fun w => (k_monitor_fd K (w_log w) str, w).

End Syscalls.

(** ** The shared handle *)

Module IOMMUFDBackend.
Record t : Type := mk { fd : Z; users : Z; owned : bool }.
Definition set_fd (v : Z) (be : t) : t := mk v (users be) (owned be).
Definition set_users (v : Z) (be : t) : t := mk (fd be) v (owned be).
Definition set_owned (v : bool) (be : t) : t := mk (fd be) (users be) v.
End IOMMUFDBackend.

(** The unset descriptor. *)
Definition FD_UNSET : Z := -1.

Section Backend.
Context {P : Platform} (K : Kernel).

Import IOMMUFDBackend.

(** [iommufd_backend_init]: the fields of a fresh object. *)
Definition iommufd_backend_init : IOMMUFDBackend.t := mk (-1) 0 true.

Definition iommufd_backend_finalize (be : IOMMUFDBackend.t)
  : M IOMMUFDBackend.t :=
  if owned be then
    close (fd be) ;;
    pure (set_fd (-1) be)
  else pure be.

Definition iommufd_backend_set_fd (be : IOMMUFDBackend.t) (str : string)
  : M (IOMMUFDBackend.t * option Error) :=
  r <- monitor_fd_param K str ;;
  let '(fd, err) := r in
  if fd =? -1 then
    pure (be,
          option_map
            (error_prepend ("Could not parse remote object fd " ++ str ++ ":"))
            err)
  else
    let be := set_owned false (set_fd fd be) in
    trace "iommu_backend_set_fd" [IOMMUFDBackend.fd be] ;;
    pure (be, err).

(** The [out:] label of [iommufd_backend_connect]. *)
Definition connect_out (be : IOMMUFDBackend.t) (r : Z) (err : option Error)
  : M (IOMMUFDBackend.t * Z * option Error) :=
  trace "iommufd_backend_connect" [fd be; Z.b2z (owned be); users be; r] ;;
  pure (be, r, err).

(** Returns the handle after the call, the [int] result and what was stored
    through [errp]. *)
Definition iommufd_backend_connect (be : IOMMUFDBackend.t)
  : M (IOMMUFDBackend.t * Z * option Error) :=
  if users be =? UINT32_MAX then
    connect_out be (- E2BIG) (Some (error_setg "too many connections"))
  else if owned be && c_not (users be) then
    fd <- qemu_open_old K "/dev/iommu" O_RDWR ;;
    if fd <? 0 then
      e <- get_errno ;;
      connect_out be fd
        (Some (error_setg_errno e "/dev/iommu opening failed"))
    else
      let be := set_fd fd be in
      connect_out (set_users (u32 (users be + 1)) be) 0 None
  else
    connect_out (set_users (u32 (users be + 1)) be) 0 None.

(** The [out:] label of [iommufd_backend_disconnect]. *)
Definition disconnect_out (be : IOMMUFDBackend.t) : M IOMMUFDBackend.t :=
  trace "iommufd_backend_disconnect" [fd be; users be] ;;
  pure be.

Definition iommufd_backend_disconnect (be : IOMMUFDBackend.t)
  : M IOMMUFDBackend.t :=
  if c_not (users be) then
    disconnect_out be
  else
    let be := set_users (u32 (users be - 1)) be in
    if c_not (users be) && owned be then
      close (fd be) ;;
      disconnect_out (set_fd (-1) be)
    else
      disconnect_out be.

End Backend.

(** ** The request wrappers

    A pointer argument that the function writes through ([uint32_t *ioas],
    [uint32_t *out_hwpt], [int *out_fd], [uint32_t *pasid]) is the content of
    the pointed cell before the call, and the content after the call is
    returned next to the [int] result. *)

Section Requests.
Context {P : Platform} (K : Kernel).

(** [error_report(fmt, ..., strerror(errno))], or the same with [%m]. *)
Definition report_errno (fmt : string) (args : list Z) : M unit :=
  e <- get_errno ;;
  error_report K fmt (args ++ [e]).

(** [if (ret) { error_report(...); }] *)
Definition report_if (ret : Z) (fmt : string) (args : list Z) : M unit :=
  if c_true ret then report_errno fmt args else pure tt.

(** [return !ret ? 0 : -errno;] *)
Definition status_of (ret : Z) : M Z :=
  e <- get_errno ;;
  pure (if c_not ret then 0 else int_neg e).

(** The initialiser of [alloc_data]; the output field is not named in it
    and starts as 0. *)
Definition alloc_ioas_request : iommu_ioas_alloc.t :=
  iommu_ioas_alloc.mk (sizeof IOMMU_IOAS_ALLOC) 0 0.

Definition iommufd_backend_alloc_ioas (fd : Z) (ioas : Z) : M (Z * Z) :=
  let alloc_data := alloc_ioas_request in
  r <- ioctl K fd IOMMU_IOAS_ALLOC alloc_data ;;
  let '(ret, alloc_data) := r in
  report_if ret "Failed to allocate ioas %m" [] ;;
  let ioas := iommu_ioas_alloc.out_ioas_id alloc_data in
  trace "iommufd_backend_alloc_ioas" [fd; ioas; ret] ;;
  pure (ret, ioas).

Definition destroy_request (id : Z) : iommu_destroy.t :=
  iommu_destroy.mk (sizeof IOMMU_DESTROY) id.

Definition iommufd_backend_free_id (fd : Z) (id : Z) : M unit :=
  let des := destroy_request id in
  r <- ioctl K fd IOMMU_DESTROY des ;;
  let '(ret, _) := r in
  trace "iommufd_backend_free_id" [fd; id; ret] ;;
  report_if ret "Failed to free id: %u %m" [id].

Definition iommufd_backend_get_ioas (be : IOMMUFDBackend.t) (ioas_id : Z)
  : M (Z * Z) :=
  r <- iommufd_backend_alloc_ioas (IOMMUFDBackend.fd be) ioas_id ;;
  let '(ret, ioas_id) := r in
  trace "iommufd_backend_get_ioas" [IOMMUFDBackend.fd be; ioas_id; ret] ;;
  pure (ret, ioas_id).

Definition iommufd_backend_put_ioas (be : IOMMUFDBackend.t) (ioas : Z)
  : M unit :=
  trace "iommufd_backend_put_ioas" [IOMMUFDBackend.fd be; ioas] ;;
  iommufd_backend_free_id (IOMMUFDBackend.fd be) ioas.

Definition unmap_request (ioas iova size : Z) : iommu_ioas_unmap.t :=
  iommu_ioas_unmap.mk (sizeof IOMMU_IOAS_UNMAP) ioas iova size.

Definition iommufd_backend_unmap_dma (be : IOMMUFDBackend.t)
    (ioas iova size : Z) : M Z :=
  let unmap := unmap_request ioas iova size in
  r <- ioctl K (IOMMUFDBackend.fd be) IOMMU_IOAS_UNMAP unmap ;;
  let '(ret, _) := r in
  trace "iommufd_backend_unmap_dma"
        [IOMMUFDBackend.fd be; ioas; iova; size; ret] ;;
  report_if ret "IOMMU_IOAS_UNMAP failed: %s" [] ;;
  status_of ret.

(** The record [iommufd_backend_map_dma] hands to the kernel: the
    initialiser, then [if (!readonly) map.flags |= IOMMU_IOAS_MAP_WRITEABLE]. *)
Definition map_request (ioas iova size vaddr : Z) (readonly : bool)
  : iommu_ioas_map.t :=
  let map :=
    iommu_ioas_map.mk (sizeof IOMMU_IOAS_MAP)
      (Z.lor IOMMU_IOAS_MAP_READABLE IOMMU_IOAS_MAP_FIXED_IOVA)
      ioas 0 (u64 (s64 vaddr)) size iova in
  if negb readonly then
    iommu_ioas_map.set_flags
      (Z.lor (iommu_ioas_map.flags map) IOMMU_IOAS_MAP_WRITEABLE) map
  else map.

Definition iommufd_backend_map_dma (be : IOMMUFDBackend.t)
    (ioas iova size vaddr : Z) (readonly : bool) : M Z :=
  let map := map_request ioas iova size vaddr readonly in
  r <- ioctl K (IOMMUFDBackend.fd be) IOMMU_IOAS_MAP map ;;
  let '(ret, _) := r in
  trace "iommufd_backend_map_dma"
        [IOMMUFDBackend.fd be; ioas; iova; size; vaddr; Z.b2z readonly; ret] ;;
  report_if ret "IOMMU_IOAS_MAP failed: %s" [] ;;
  status_of ret.

Definition copy_request (src_ioas dst_ioas iova size : Z) (readonly : bool)
  : iommu_ioas_copy.t :=
  let copy :=
    iommu_ioas_copy.mk (sizeof IOMMU_IOAS_COPY)
      (Z.lor IOMMU_IOAS_MAP_READABLE IOMMU_IOAS_MAP_FIXED_IOVA)
      dst_ioas src_ioas size iova iova in
  if negb readonly then
    iommu_ioas_copy.set_flags
      (Z.lor (iommu_ioas_copy.flags copy) IOMMU_IOAS_MAP_WRITEABLE) copy
  else copy.

Definition iommufd_backend_copy_dma (be : IOMMUFDBackend.t)
    (src_ioas dst_ioas iova size : Z) (readonly : bool) : M Z :=
  let copy := copy_request src_ioas dst_ioas iova size readonly in
  r <- ioctl K (IOMMUFDBackend.fd be) IOMMU_IOAS_COPY copy ;;
  let '(ret, _) := r in
  trace "iommufd_backend_copy_dma"
        [IOMMUFDBackend.fd be; src_ioas; dst_ioas; iova; size;
         Z.b2z readonly; ret] ;;
  report_if ret "IOMMU_IOAS_COPY failed: %s" [] ;;
  status_of ret.

Definition alloc_hwpt_request
    (flags dev_id hwpt_type parent data_type data data_len : Z)
  : iommu_alloc_hwpt.t :=
  iommu_alloc_hwpt.mk (sizeof IOMMU_ALLOC_HWPT) flags dev_id hwpt_type
    parent data_type data_len 0 (u64 data) 0.

Definition iommufd_backend_alloc_hwpt
    (iommufd flags dev_id hwpt_type parent data_type data data_len : Z)
    (out_hwpt : Z) : M (Z * Z) :=
  let alloc_hwpt :=
    alloc_hwpt_request flags dev_id hwpt_type parent data_type data data_len in
  r <- ioctl K iommufd IOMMU_ALLOC_HWPT alloc_hwpt ;;
  let '(ret, alloc_hwpt) := r in
  trace "iommufd_backend_alloc_hwpt"
        [iommufd; flags; dev_id; hwpt_type; parent; data_type; u64 data; ret] ;;
  out_hwpt <- (if c_true ret then
                 report_errno "IOMMU_ALLOC_HWPT (%d type) failed: %s"
                              [hwpt_type] ;;
                 pure out_hwpt
               else
                 pure (iommu_alloc_hwpt.out_hwpt_id alloc_hwpt)) ;;
  status <- status_of ret ;;
  pure (status, out_hwpt).

Definition add_hwpt_event_request (dev_id hwpt eventfd : Z)
  : iommu_add_hwpt_event.t :=
  iommu_add_hwpt_event.mk (sizeof IOMMU_ADD_HWPT_EVENT) 0
    IOMMU_HWPT_EVENT_FAULT dev_id hwpt eventfd 0.

Definition iommufd_backend_add_hwpt_event
    (iommufd dev_id hwpt eventfd : Z) (out_fd : Z) : M (Z * Z) :=
  let add_event := add_hwpt_event_request dev_id hwpt eventfd in
  r <- ioctl K iommufd IOMMU_ADD_HWPT_EVENT add_event ;;
  let '(ret, add_event) := r in
  trace "iommufd_backend_add_hwpt_event"
        [iommufd; iommu_add_hwpt_event.type add_event; dev_id; hwpt;
         eventfd; ret] ;;
  out_fd <- (if c_true ret then
               report_errno "IOMMU_ADD_HWPT_EVENT failed: %s" [] ;;
               pure out_fd
             else
               pure (iommu_add_hwpt_event.out_fd add_event)) ;;
  status <- status_of ret ;;
  pure (status, out_fd).

Definition alloc_pasid_request (min max : Z) (identical : bool) (upasid : Z)
  : iommu_alloc_pasid.t :=
  iommu_alloc_pasid.mk (sizeof IOMMU_ALLOC_PASID)
    (if identical then IOMMU_ALLOC_PASID_IDENTICAL else 0)
    min max upasid.

Definition iommufd_backend_alloc_pasid
    (iommufd min max : Z) (identical : bool) (pasid : Z) : M (Z * Z) :=
  let upasid := pasid in
  let alloc := alloc_pasid_request min max identical upasid in
  r <- ioctl K iommufd IOMMU_ALLOC_PASID alloc ;;
  let '(ret, alloc) := r in
  pasid <- (if c_true ret then
              report_errno "IOMMU_ALLOC_PASID failed: %s" [] ;;
              pure pasid
            else
              pure (iommu_alloc_pasid.pasid alloc)) ;;
  trace "iommufd_backend_alloc_pasid"
        [iommufd; min; max; Z.b2z identical; upasid; pasid; ret] ;;
  status <- status_of ret ;;
  pure (status, pasid).

Definition iommufd_backend_free_pasid (iommufd pasid : Z) : M Z :=
  let free := iommu_free_pasid.mk (sizeof IOMMU_FREE_PASID) 0 pasid in
  r <- ioctl K iommufd IOMMU_FREE_PASID free ;;
  let '(ret, _) := r in
  report_if ret "IOMMU_FREE_PASID failed: %s" [] ;;
  trace "iommufd_backend_free_pasid" [iommufd; pasid; ret] ;;
  status_of ret.

End Requests.

(** ** Sequences of calls on one handle *)

Inductive call : Set := Connect | Disconnect.

(** A handle, the process around it, and what the [connect] calls have
    returned so far: the [int] result and what was stored through [errp]. *)
Record Sys : Type := mkSys {
  handle : IOMMUFDBackend.t;
  world : World;
  rets : list (Z * option Error)
}.

(** A connect that succeeded returned 0 and set no error. *)
Definition succeeded (r : Z * option Error) : Prop := r = (0, None).

Section Runs.
Context {P : Platform} (K : Kernel).

Definition step (s : Sys) (c : call) : Sys :=
  match c with
  | Connect =>
      let r := iommufd_backend_connect K (handle s) (world s) in
      mkSys (fst (fst (fst r))) (snd r)
            (rets s ++ [(snd (fst (fst r)), snd (fst r))])
  | Disconnect =>
      let r := iommufd_backend_disconnect (handle s) (world s) in
      mkSys (fst r) (snd r) (rets s)
  end.

Definition run (cs : list call) (s : Sys) : Sys := fold_left step cs s.

End Runs.

(** A process that has made no call yet, and a fresh handle in it. *)
Definition boot : World := mkWorld 0 [] [].
Definition start : Sys := mkSys iommufd_backend_init boot [].

(** The calls on descriptors among the events of a log. *)
Definition is_fd_call (e : event) : bool :=
  match e with
  | EvOpen _ _ _ | EvClose _ => true
  | _ => false
  end.

Definition fd_calls (w : World) : list event := filter is_fd_call (w_log w).

(** The diagnostics among the events of a log. *)
Definition is_report (e : event) : bool :=
  match e with
  | EvErrorReport _ _ => true
  | _ => false
  end.

Definition reports (w : World) : list event := filter is_report (w_log w).

(** The requests sent to the kernel among the events of a log. *)
Definition is_ioctl (e : event) : bool :=
  match e with
  | EvIoctl _ _ _ _ => true
  | _ => false
  end.

Definition requests (w : World) : list event := filter is_ioctl (w_log w).

(** The state of a self-owned handle on descriptor [d] that [n] users
    share: the device was opened once, as [d], and [d] is still open. *)
Definition shared_by {P : Platform} (d n : Z) (s : Sys) : Prop :=
  handle s = IOMMUFDBackend.mk d n true /\
  w_fds (world s) = [d] /\
  fd_calls (world s) = [EvOpen "/dev/iommu" O_RDWR d].

(** The states of a self-owned handle: without users it has no descriptor,
    and with users its descriptor is the one open descriptor. *)
Definition self_owned_inv (s : Sys) : Prop :=
  let be := handle s in
  IOMMUFDBackend.owned be = true /\
  in_u32 (IOMMUFDBackend.users be) /\
  (IOMMUFDBackend.users be = 0 ->
   IOMMUFDBackend.fd be = FD_UNSET /\ w_fds (world s) = []) /\
  (0 < IOMMUFDBackend.users be ->
   0 <= IOMMUFDBackend.fd be /\ w_fds (world s) = [IOMMUFDBackend.fd be]).

(** ** Sample environments, to run the model on concrete inputs *)

(** The values of the Linux headers for the names the mainline headers
    define, and sample values for the others. *)
#[export] Instance linux : Platform := {|
  O_RDWR := 2;
  E2BIG := 7;
  EBADF := 9;
  IOMMU_IOAS_MAP_FIXED_IOVA := 1;
  IOMMU_IOAS_MAP_WRITEABLE := 2;
  IOMMU_IOAS_MAP_READABLE := 4;
  IOMMU_ALLOC_PASID_IDENTICAL := 1;
  IOMMU_HWPT_EVENT_FAULT := 1;
  sizeof := fun c =>
    match c with
    | IOMMU_IOAS_ALLOC => 12
    | IOMMU_DESTROY => 8
    | IOMMU_IOAS_UNMAP => 24
    | IOMMU_IOAS_MAP => 40
    | IOMMU_IOAS_COPY => 40
    | IOMMU_ALLOC_HWPT => 48
    | IOMMU_ADD_HWPT_EVENT => 28
    | IOMMU_ALLOC_PASID => 20
    | IOMMU_FREE_PASID => 12
    end
|}.

(** A kernel that grants requests: the device opens as descriptor 3, ids
    are minted from the number of events so far, a PASID is the lower end of
    the requested range. *)
Definition grant (log : list event) (c : cmd) : payload c -> payload c :=
  let fresh := Z.of_nat (List.length log) in
  match c with
  | IOMMU_IOAS_ALLOC => fun a =>
      iommu_ioas_alloc.mk (iommu_ioas_alloc.size a)
                          (iommu_ioas_alloc.flags a) (1 + fresh)
  | IOMMU_ALLOC_HWPT => fun a =>
      let 'iommu_alloc_hwpt.mk s f d t p dt dl r u _ := a in
      iommu_alloc_hwpt.mk s f d t p dt dl r u (1 + fresh)
  | IOMMU_ADD_HWPT_EVENT => fun a =>
      let 'iommu_add_hwpt_event.mk s f t d h e _ := a in
      iommu_add_hwpt_event.mk s f t d h e (4 + fresh)
  | IOMMU_ALLOC_PASID => fun a =>
      let 'iommu_alloc_pasid.mk s f lo hi _ := a in
      iommu_alloc_pasid.mk s f lo hi lo
  | _ => fun a => a
  end.

(** It only refuses, with [EINVAL] (22), a PASID from an empty range. *)
Definition grantable (c : cmd) : payload c -> bool :=
  match c with
  | IOMMU_ALLOC_PASID => fun a =>
      iommu_alloc_pasid.range_min a <=? iommu_alloc_pasid.range_max a
  | _ => fun _ => true
  end.

Definition granting : Kernel := {|
  k_open := fun _ _ _ => (3, 0);
  k_ioctl := fun log _ c a =>
    if grantable c a then (0, 0, grant log c a) else (-1, 22, a);
  k_monitor_fd := fun _ _ => (5, None);
  k_report := fun _ e => e
|}.

(** A kernel that refuses everything: no device node ([ENOENT], 2), every
    request fails with [EINVAL] (22) and its record is left as it was. *)
Definition refusing : Kernel := {|
  k_open := fun _ _ _ => (-1, 2);
  k_ioctl := fun _ _ _ a => (-1, 22, a);
  k_monitor_fd := fun _ _ => (-1, Some (error_setg "No such fd"));
  k_report := fun _ e => e
|}.

(** The refusing kernel in a process whose standard error stream is closed:
    the write of a report fails and leaves [EBADF] (9) in [errno]. *)
Definition stderr_closed : Kernel := {|
  k_open := k_open refusing;
  k_ioctl := k_ioctl refusing;
  k_monitor_fd := k_monitor_fd refusing;
  k_report := fun _ _ => 9
|}.


(** An environment in which the reports leave [errno] as they found it. *)
Definition report_keeps_errno (K : Kernel) : Prop :=
  forall (log : list event) (e : Z), k_report K log e = e.

(** The answer of the kernel to a request made in the world [w]: the status
    [ioctl] returns, [errno] after the call, and the record as the kernel
    left it. *)
Section Answers.
Context (K : Kernel) (w : World) (fd : Z) (c : cmd) (arg : payload c).

Definition k_status : Z := fst (fst (k_ioctl K (w_log w) fd c arg)).
Definition k_errno : Z := snd (fst (k_ioctl K (w_log w) fd c arg)).
Definition k_record : payload c := snd (k_ioctl K (w_log w) fd c arg).

End Answers.

(** The caller's reading of the pair an allocation returns, the [int]
    result and the content of the output cell: an id when the result is 0,
    and no id otherwise. *)
Inductive allocation : Type :=
| Allocated (id : Z)
| KernelRequestFailed (status : Z).

Definition allocation_of (r : Z * Z) : allocation :=
  if fst r =? 0 then Allocated (snd r) else KernelRequestFailed (fst r).


(** Descriptors are not negative: the unset value is never an open one. *)
Definition fds_valid (w : World) : Prop := Forall (fun d => 0 <= d) (w_fds w).

(** What a caller of map, unmap or copy gets for an answer of the kernel
    with the given status and [errno]: 0 when the request was granted, and
    otherwise the negation of [errno], which is exact (and negative) for the
    error codes of the system. *)
Definition negated_errno (status errno result : Z) : Prop :=
  (status = 0 -> result = 0) /\
  (status <> 0 ->
   result = int_neg errno /\
   (0 < errno < 2 ^ 31 -> result = - errno /\ result < 0)).

(** The descriptors that the successful opens of a log returned, and the
    descriptors that its closes were called on, both oldest first. *)
Definition opened_of (e : event) : list Z :=
  match e with
  | EvOpen _ _ res => if res <? 0 then [] else [res]
  | _ => []
  end.

Definition closed_of (e : event) : list Z :=
  match e with
  | EvClose fd => [fd]
  | _ => []
  end.

Definition opened_fds (w : World) : list Z := flat_map opened_of (fd_calls w).
Definition closed_fds (w : World) : list Z := flat_map closed_of (fd_calls w).

(** The descriptor a handle holds for its users, if it has any. *)
Definition held (be : IOMMUFDBackend.t) : list Z :=
  if 0 <? IOMMUFDBackend.users be then [IOMMUFDBackend.fd be] else [].

(** A call that sends one request [c] on [fd] and makes no call on a
    descriptor. *)
Definition one_request {A : Type} (m : M A) (fd : Z) (c : cmd) (w : World)
  : Prop :=
  exists (arg : payload c) (res : Z),
    requests (snd (m w)) = requests w ++ [EvIoctl fd c arg res] /\
    w_fds (snd (m w)) = w_fds w /\
    fd_calls (snd (m w)) = fd_calls w.


(** The closes made so far are the opens made so far, in the same order,
    except for the descriptor the handle still holds. *)
Definition paired (s : Sys) : Prop :=
  opened_fds (world s) = closed_fds (world s) ++ held (handle s).

(** ** Basic facts *)

Ltac io :=
  unfold bind, pure, trace, error_report, emit, get_errno; simpl.

Lemma u32_small (x : Z) : in_u32 x -> u32 x = x.
Proof.
  unfold in_u32, u32, UINT32_MAX. intros H. apply Z.mod_small. lia.
Qed.

Lemma fd_calls_emit_trace (w : World) (pt : string) (args : list Z) :
  fd_calls (snd (trace pt args w)) = fd_calls w.
Proof.
  unfold fd_calls. io. rewrite filter_app. simpl. apply app_nil_r.
Qed.

Section ConnectFacts.
Context {P : Platform} (K : Kernel).

Import IOMMUFDBackend.

(** A connect that has to open the device, and can. *)
Lemma connect_opens (be : IOMMUFDBackend.t) (w : World) (d e : Z) :
  users be = 0 -> owned be = true ->
  k_open K (w_log w) "/dev/iommu" O_RDWR = (d, e) -> 0 <= d ->
  let r := iommufd_backend_connect K be w in
  fst r = (mk d 1 true, 0, None) /\
  w_fds (snd r) = d :: w_fds w /\
  fd_calls (snd r) = fd_calls w ++ [EvOpen "/dev/iommu" O_RDWR d].
Proof.
  destruct be as [f u o]. simpl. intros -> -> Hk Hd.
  unfold iommufd_backend_connect. simpl.
  unfold connect_out, qemu_open_old. io.
  rewrite Hk. simpl.
  destruct (d <? 0) eqn:E; [apply Z.ltb_lt in E; lia|].
  simpl. unfold fd_calls. simpl. rewrite !filter_app. simpl.
  rewrite app_nil_r. auto.
Qed.

(** A connect on a handle that needs no open. *)
Lemma connect_shares (be : IOMMUFDBackend.t) (w : World) :
  0 <= users be < UINT32_MAX -> (owned be = false \/ 0 < users be) ->
  let r := iommufd_backend_connect K be w in
  fst r = (set_users (users be + 1) be, 0, None) /\
  w_fds (snd r) = w_fds w /\
  fd_calls (snd r) = fd_calls w.
Proof.
  destruct be as [f u o]. simpl. intros Hu Hs.
  unfold iommufd_backend_connect. simpl.
  destruct (u =? UINT32_MAX) eqn:E1; [apply Z.eqb_eq in E1; lia|].
  assert (E2 : o && c_not u = false).
  { destruct Hs as [-> | Hpos]; [reflexivity|].
    unfold c_not. destruct (u =? 0) eqn:E; [apply Z.eqb_eq in E; lia|].
    apply andb_false_r. }
  rewrite E2. unfold connect_out, set_users. io.
  rewrite u32_small by (unfold in_u32; lia).
  unfold fd_calls. simpl. rewrite filter_app. simpl. rewrite app_nil_r. auto.
Qed.

(** A connect on a handle whose counter is at its maximum. *)
Lemma connect_saturated (be : IOMMUFDBackend.t) (w : World) :
  users be = UINT32_MAX ->
  let r := iommufd_backend_connect K be w in
  fst r = (be, - E2BIG, Some (error_setg "too many connections")) /\
  w_fds (snd r) = w_fds w /\ w_errno (snd r) = w_errno w /\
  fd_calls (snd r) = fd_calls w.
Proof.
  destruct be as [f u o]. simpl. intros ->.
  unfold iommufd_backend_connect, connect_out. io.
  unfold fd_calls. simpl. rewrite filter_app. simpl.
  rewrite app_nil_r. auto.
Qed.

(** A connect that has to open the device, and cannot. *)
Lemma connect_open_fails (be : IOMMUFDBackend.t) (w : World) :
  owned be = true -> users be = 0 ->
  let o := k_open K (w_log w) "/dev/iommu" O_RDWR in
  fst o < 0 ->
  let r := iommufd_backend_connect K be w in
  fst r = (be, fst o,
           Some (error_setg_errno (snd o) "/dev/iommu opening failed")) /\
  w_fds (snd r) = w_fds w /\
  fd_calls (snd r) = fd_calls w ++ [EvOpen "/dev/iommu" O_RDWR (fst o)].
Proof.
  destruct be as [f u ow]. simpl. intros -> -> Hneg.
  unfold iommufd_backend_connect. simpl.
  unfold connect_out, qemu_open_old. io.
  destruct (k_open K (w_log w) "/dev/iommu" O_RDWR) as [res e].
  simpl in *. apply Z.ltb_lt in Hneg. rewrite Hneg. simpl.
  unfold fd_calls. simpl. rewrite !filter_app. simpl.
  rewrite app_nil_r. auto.
Qed.

End ConnectFacts.

Section DisconnectFacts.
Context {P : Platform}.

Import IOMMUFDBackend.

(** A disconnect on a handle nobody is connected to. *)
Lemma disconnect_idle (be : IOMMUFDBackend.t) (w : World) :
  users be = 0 ->
  let r := iommufd_backend_disconnect be w in
  fst r = be /\
  w_fds (snd r) = w_fds w /\ w_errno (snd r) = w_errno w /\
  fd_calls (snd r) = fd_calls w.
Proof.
  destruct be as [f u o]. simpl. intros ->.
  unfold iommufd_backend_disconnect, disconnect_out. io.
  unfold fd_calls. simpl. rewrite filter_app. simpl.
  rewrite app_nil_r. auto.
Qed.

(** A disconnect that leaves the descriptor alone: other users remain, or
    the descriptor is not ours. *)
Lemma disconnect_keeps (be : IOMMUFDBackend.t) (w : World) :
  users be <> 0 -> (u32 (users be - 1) <> 0 \/ owned be = false) ->
  let r := iommufd_backend_disconnect be w in
  fst r = set_users (u32 (users be - 1)) be /\
  w_fds (snd r) = w_fds w /\ w_errno (snd r) = w_errno w /\
  fd_calls (snd r) = fd_calls w.
Proof.
  destruct be as [f u o]. simpl. intros Hu Hk.
  unfold iommufd_backend_disconnect, c_not. simpl.
  destruct (u =? 0) eqn:E0; [apply Z.eqb_eq in E0; contradiction|].
  assert (E1 : (u32 (u - 1) =? 0) && o = false).
  { destruct Hk as [Hk | ->]; [|apply andb_false_r].
    apply Z.eqb_neq in Hk. now rewrite Hk. }
  rewrite E1. unfold disconnect_out, set_users. io.
  unfold fd_calls. simpl. rewrite filter_app. simpl.
  rewrite app_nil_r. auto.
Qed.

(** The disconnect of the last user of a descriptor we opened. *)
Lemma disconnect_closes (be : IOMMUFDBackend.t) (w : World) :
  users be <> 0 -> u32 (users be - 1) = 0 -> owned be = true ->
  let r := iommufd_backend_disconnect be w in
  fst r = mk (-1) 0 true /\
  w_fds (snd r) = List.remove Z.eq_dec (fd be) (w_fds w) /\
  fd_calls (snd r) = fd_calls w ++ [EvClose (fd be)].
Proof.
  destruct be as [f u o]. simpl. intros Hu Hz ->.
  unfold iommufd_backend_disconnect, c_not. simpl.
  destruct (u =? 0) eqn:E0; [apply Z.eqb_eq in E0; contradiction|].
  rewrite Hz. simpl. unfold disconnect_out, close, set_fd. io.
  unfold fd_calls. simpl. rewrite !filter_app. simpl.
  rewrite app_nil_r. auto.
Qed.

End DisconnectFacts.

Lemma run_snoc {P : Platform} (K : Kernel) (cs : list call) (c : call)
    (s : Sys) :
  run K (cs ++ [c]) s = step K (run K cs s) c.
Proof. unfold run. now rewrite fold_left_app. Qed.

Lemma run_app {P : Platform} (K : Kernel) (cs cs' : list call) (s : Sys) :
  run K (cs ++ cs') s = run K cs' (run K cs s).
Proof. unfold run. apply fold_left_app. Qed.

Lemma repeat_snoc {A : Type} (a : A) (n : nat) :
  repeat a (S n) = repeat a n ++ [a].
Proof. simpl. apply repeat_cons. Qed.

(** ** Any sequence of calls on a fresh handle *)

Lemma step_self_owned_inv {P : Platform} (K : Kernel) (s : Sys) (c : call) :
  self_owned_inv s -> self_owned_inv (step K s c).
Proof.
  destruct s as [be w rs]. unfold self_owned_inv. cbn [handle world].
  intros (Ho & Hu & Hz & Hp). unfold in_u32 in Hu.
  destruct c; unfold step; cbn [handle world rets].
  - destruct (Z.eq_dec (IOMMUFDBackend.users be) UINT32_MAX) as [Hmax | Hmax].
    { destruct (connect_saturated K be w Hmax) as (E1 & E2 & _).
      rewrite E1, E2. simpl. unfold in_u32. auto. }
    destruct (Z.eq_dec (IOMMUFDBackend.users be) 0) as [H0 | H0].
    + destruct (Hz H0) as [Hfd Hfds].
      destruct (k_open K (w_log w) "/dev/iommu" O_RDWR) as [d e] eqn:Hk.
      destruct (Z_lt_le_dec d 0) as [Hneg | Hpos].
      * destruct (connect_open_fails K be w Ho H0) as (E1 & E2 & _).
        { rewrite Hk. exact Hneg. }
        rewrite E1, E2. simpl. unfold in_u32. auto.
      * destruct (connect_opens K be w d e H0 Ho Hk Hpos) as (E1 & E2 & _).
        rewrite E1, E2, Hfds. simpl. unfold in_u32, UINT32_MAX.
        repeat split; auto; lia.
    + destruct (connect_shares K be w) as (E1 & E2 & _); [lia | right; lia |].
      rewrite E1, E2. destruct be as [f u o]. simpl in *.
      unfold in_u32. repeat split; auto; try lia; apply Hp; lia.
  - destruct (Z.eq_dec (IOMMUFDBackend.users be) 0) as [H0 | H0].
    { destruct (disconnect_idle be w H0) as (E1 & E2 & _).
      rewrite E1, E2. unfold in_u32. auto. }
    assert (Hm : u32 (IOMMUFDBackend.users be - 1)
                 = IOMMUFDBackend.users be - 1)
      by (apply u32_small; unfold in_u32; lia).
    destruct (Hp ltac:(lia)) as [Hfd Hfds].
    destruct (Z.eq_dec (IOMMUFDBackend.users be) 1) as [H1 | H1].
    + destruct (disconnect_closes be w) as (E1 & E2 & _);
        [lia | rewrite Hm; lia | exact Ho |].
      rewrite E1, E2, Hfds. simpl.
      destruct (Z.eq_dec _ _); [|contradiction].
      unfold in_u32, UINT32_MAX, FD_UNSET. repeat split; auto; lia.
    + destruct (disconnect_keeps be w) as (E1 & E2 & _);
        [lia | left; rewrite Hm; lia |].
      rewrite E1, E2, Hm. destruct be as [f u o]. simpl in *.
      unfold in_u32. repeat split; auto; lia.
Qed.

Lemma run_self_owned_inv {P : Platform} (K : Kernel) (cs : list call) :
  self_owned_inv (run K cs start).
Proof.
  induction cs as [|c cs IH] using rev_ind.
  - simpl. unfold self_owned_inv, in_u32, UINT32_MAX, FD_UNSET. simpl.
    repeat split; auto; lia.
  - rewrite run_snoc. now apply step_self_owned_inv.
Qed.

(** ** N connects followed by N disconnects *)

Section Balanced.
Context {P : Platform} (K : Kernel).
Variables (d e : Z).
Hypothesis Hopen : k_open K [] "/dev/iommu" O_RDWR = (d, e).
Hypothesis Hd : 0 <= d.

Import IOMMUFDBackend.

Lemma connect_phase (i : nat) :
  (1 <= i)%nat -> Z.of_nat i <= UINT32_MAX ->
  let s := run K (repeat Connect i) start in
  shared_by d (Z.of_nat i) s /\ rets s = repeat (0, None) i.
Proof.
  induction i as [|i IH]; [lia|]. intros _ Hmax.
  rewrite repeat_snoc, run_snoc.
  destruct i as [|i].
  - simpl. unfold step, start. simpl.
    destruct (connect_opens K iommufd_backend_init boot d e
                eq_refl eq_refl Hopen Hd) as (E1 & E2 & E3).
    rewrite E1. simpl. unfold shared_by. simpl. now rewrite E2, E3.
  - destruct IH as [(Hh & Hf & Hc) Hr]; [lia | lia |].
    set (s := run K (repeat Connect (S i)) start) in *.
    unfold step.
    destruct (connect_shares K (handle s) (world s)) as (E1 & E2 & E3).
    { rewrite Hh. simpl. lia. }
    { right. rewrite Hh. simpl. lia. }
    rewrite E1. simpl. unfold shared_by. simpl.
    rewrite E2, E3, Hf, Hc, Hh, Hr. unfold set_users. simpl.
    repeat split.
    + f_equal. lia.
    + now rewrite <- repeat_cons.
Qed.

Lemma disconnect_phase (n : Z) (s : Sys) (j : nat) :
  shared_by d n s -> Z.of_nat j <= n <= UINT32_MAX ->
  let s' := run K (repeat Disconnect j) s in
  rets s' = rets s /\
  (Z.of_nat j < n -> shared_by d (n - Z.of_nat j) s') /\
  (Z.of_nat j = n -> (1 <= j)%nat ->
   handle s' = mk (-1) 0 true /\
   w_fds (world s') = [] /\
   fd_calls (world s') = [EvOpen "/dev/iommu" O_RDWR d; EvClose d]).
Proof.
  intros Hs. induction j as [|j IH]; intros Hj.
  - simpl. split; [reflexivity|]. split; [|lia].
    intros _. now replace (n - 0) with n by lia.
  - rewrite repeat_snoc, run_snoc.
    destruct IH as (Hr & Hlt & _); [lia|].
    destruct Hlt as (Hh & Hf & Hc); [lia|].
    set (t := run K (repeat Disconnect j) s) in *.
    unfold step. cbn [handle world rets].
    split; [exact Hr|]. split.
    + intros Hlt.
      destruct (disconnect_keeps (handle t) (world t)) as (E1 & E2 & _ & E3).
      { rewrite Hh. simpl. lia. }
      { left. rewrite Hh. simpl.
        rewrite u32_small by (unfold in_u32; lia). lia. }
      unfold shared_by. cbn [handle world rets].
      rewrite E1, E2, E3, Hf, Hc, Hh.
      unfold set_users. cbn [fd users owned].
      rewrite u32_small by (unfold in_u32; lia).
      repeat split. f_equal. lia.
    + intros Heq _.
      destruct (disconnect_closes (handle t) (world t)) as (E1 & E2 & E3).
      { rewrite Hh. simpl. lia. }
      { rewrite Hh. simpl. replace (n - Z.of_nat j - 1) with 0 by lia.
        reflexivity. }
      { now rewrite Hh. }
      rewrite E1, E2, E3, Hf, Hc, Hh. simpl.
      destruct (Z.eq_dec d d); [auto | contradiction].
Qed.

End Balanced.

(** *** When every connect of the sequence succeeds *)

Lemma run_cons {P : Platform} (K : Kernel) (c : call) (cs : list call)
    (s : Sys) :
  run K (c :: cs) s = run K cs (step K s c).
Proof. reflexivity. Qed.

Lemma rets_grow {P : Platform} (K : Kernel) (cs : list call) (s : Sys) :
  exists l, rets (run K cs s) = rets s ++ l.
Proof.
  induction cs as [|c cs IH] using rev_ind.
  - exists []. simpl. now rewrite app_nil_r.
  - destruct IH as [l Hl]. rewrite run_snoc.
    destruct c; unfold step; cbn [rets]; rewrite Hl.
    + eexists. now rewrite <- app_assoc.
    + now exists l.
Qed.

Lemma connects_succeed_open {P : Platform} (K : Kernel) (N : nat) :
  (1 <= N)%nat ->
  Forall succeeded (rets (run K (repeat Connect N) start)) ->
  0 <= fst (k_open K [] "/dev/iommu" O_RDWR).
Proof.
  destruct N as [|N]; [lia|]. intros _ Hall.
  destruct (Z_lt_le_dec (fst (k_open K [] "/dev/iommu" O_RDWR)) 0)
    as [Hneg | Hpos]; [exfalso | exact Hpos].
  simpl repeat in Hall. rewrite run_cons in Hall.
  destruct (rets_grow K (repeat Connect N) (step K start Connect)) as [l Hl].
  rewrite Hl in Hall. apply Forall_app in Hall. destruct Hall as [Hall _].
  unfold step, start in Hall. cbn [handle world rets] in Hall.
  destruct (connect_open_fails K iommufd_backend_init boot
              eq_refl eq_refl Hneg) as (E1 & _).
  rewrite E1 in Hall. simpl in Hall.
  inversion Hall as [|x xs Hx _]. discriminate Hx.
Qed.

Lemma uint32_max_as_nat : exists M : nat, Z.of_nat M = UINT32_MAX.
Proof.
  exists (Z.to_nat UINT32_MAX). apply Z2Nat.id. unfold UINT32_MAX. lia.
Qed.

(** Past the maximum of the counter a connect fails. *)
Lemma connects_beyond_max {P : Platform} (K : Kernel) (M k : nat) :
  Z.of_nat M = UINT32_MAX ->
  ~ Forall succeeded (rets (run K (repeat Connect (M + S k)) start)).
Proof.
  intros HM Hall.
  assert (H1 : (1 <= M + S k)%nat) by lia.
  pose proof (connects_succeed_open K (M + S k) H1 Hall) as Hd.
  destruct (k_open K [] "/dev/iommu" O_RDWR) as [d e] eqn:Hopen.
  simpl in Hd.
  rewrite repeat_app in Hall. simpl repeat in Hall.
  rewrite run_app, run_cons in Hall.
  destruct (connect_phase K d e Hopen Hd M) as [(Hh & _) _];
    [unfold UINT32_MAX in HM; lia | lia |].
  set (s := run K (repeat Connect M) start) in *.
  destruct (rets_grow K (repeat Connect k) (step K s Connect)) as [l Hl].
  rewrite Hl in Hall. apply Forall_app in Hall. destruct Hall as [Hall _].
  unfold step in Hall. cbn [rets] in Hall.
  apply Forall_app in Hall. destruct Hall as [_ Hall].
  destruct (connect_saturated K (handle s) (world s)) as (E1 & _).
  { rewrite Hh. simpl. exact HM. }
  rewrite E1 in Hall. simpl in Hall.
  inversion Hall as [|x xs Hx _]. discriminate Hx.
Qed.

Lemma connects_succeed_bound {P : Platform} (K : Kernel) (N : nat) :
  Forall succeeded (rets (run K (repeat Connect N) start)) ->
  Z.of_nat N <= UINT32_MAX.
Proof.
  intros Hall.
  destruct (Z_le_gt_dec (Z.of_nat N) UINT32_MAX) as [Hle | Hgt];
    [exact Hle | exfalso].
  destruct uint32_max_as_nat as [M HM].
  assert (Hk : exists k : nat, N = (M + S k)%nat)
    by (exists (N - M - 1)%nat; lia).
  destruct Hk as [k ->].
  exact (connects_beyond_max K M k HM Hall).
Qed.

(** The runs in which all N connects succeed are those where the device
    can be opened and N is within the range of the counter. *)
Lemma connects_succeed_iff {P : Platform} (K : Kernel) (N : nat) :
  (1 <= N)%nat ->
  Forall succeeded (rets (run K (repeat Connect N) start)) <->
  Z.of_nat N <= UINT32_MAX /\ 0 <= fst (k_open K [] "/dev/iommu" O_RDWR).
Proof.
  intros HN. split.
  - intros Hall. split.
    + exact (connects_succeed_bound K N Hall).
    + exact (connects_succeed_open K N HN Hall).
  - intros [Hmax Hd].
    destruct (k_open K [] "/dev/iommu" O_RDWR) as [d e] eqn:Hopen.
    simpl in Hd.
    destruct (connect_phase K d e Hopen Hd N HN Hmax) as [_ Hr].
    rewrite Hr. apply Forall_forall. intros x Hx.
    apply repeat_spec in Hx. exact Hx.
Qed.

(** C1.  On a fresh, self-owned handle the descriptor is valid whenever
    the count of users is positive: after any sequence of connect and
    disconnect calls, and whatever the kernel answers, a handle with users
    has a descriptor that is not the unset value and is open in the process.
    For N >= 1 connects that all succeed, followed by N disconnects: the
    device is opened exactly once, by the first connect (no call on a
    descriptor precedes it, and the only one after it, until the last
    disconnect, is that open), and it is closed exactly once, by the last
    disconnect; in every state in between, which are the states where the
    count of users is positive, the descriptor of the handle is the one the
    open returned. *)
Theorem connect_disconnect_balanced
    {P : Platform} (K : Kernel) (N : nat) :
  (forall cs : list call,
     let s := run K cs start in
     0 < IOMMUFDBackend.users (handle s) ->
     IOMMUFDBackend.fd (handle s) <> FD_UNSET /\
     fd_open (IOMMUFDBackend.fd (handle s)) (world s) = true) /\
  ((1 <= N)%nat ->
   Forall succeeded (rets (run K (repeat Connect N) start)) ->
   let d := fst (k_open K [] "/dev/iommu" O_RDWR) in
   let opened := EvOpen "/dev/iommu" O_RDWR d in
   d <> FD_UNSET /\
   fd_calls (world start) = [] /\
   (forall i : nat, (1 <= i <= N)%nat ->
      let s := run K (repeat Connect i) start in
      IOMMUFDBackend.users (handle s) = Z.of_nat i /\
      IOMMUFDBackend.fd (handle s) = d /\
      fd_open d (world s) = true /\
      fd_calls (world s) = [opened]) /\
   (forall j : nat, (j < N)%nat ->
      let s := run K (repeat Connect N ++ repeat Disconnect j) start in
      IOMMUFDBackend.users (handle s) = Z.of_nat (N - j) /\
      0 < IOMMUFDBackend.users (handle s) /\
      IOMMUFDBackend.fd (handle s) = d /\
      fd_open d (world s) = true /\
      fd_calls (world s) = [opened]) /\
   (let s := run K (repeat Connect N ++ repeat Disconnect N) start in
    IOMMUFDBackend.users (handle s) = 0 /\
    IOMMUFDBackend.fd (handle s) = FD_UNSET /\
    fd_open d (world s) = false /\
    fd_calls (world s) = [opened; EvClose d])).
Proof.
  split.
  { intros cs s Hpos.
    destruct (run_self_owned_inv K cs) as (_ & _ & _ & Hp). fold s in Hp.
    destruct (Hp Hpos) as [Hfd Hfds]. split; [unfold FD_UNSET; lia|].
    unfold fd_open. rewrite Hfds. simpl. now rewrite Z.eqb_refl. }
  intros HN Hall d opened.
  pose proof (connects_succeed_bound K N Hall) as Hmax.
  pose proof (connects_succeed_open K N HN Hall) as Hd.
  destruct (k_open K [] "/dev/iommu" O_RDWR) as [d' e] eqn:Hopen.
  simpl in Hd, d. subst d opened.
  split; [unfold FD_UNSET; lia|]. split; [reflexivity|].
  split; [|split].
  - intros i Hi s.
    destruct (connect_phase K d' e Hopen Hd i) as [(Hh & Hf & Hc) Hr];
      [lia | lia |]. fold s in Hh, Hf, Hc, Hr.
    rewrite Hh. simpl. repeat split; auto.
    unfold fd_open. rewrite Hf. simpl. now rewrite Z.eqb_refl.
  - intros j Hj s. subst s. rewrite run_app.
    destruct (connect_phase K d' e Hopen Hd N) as [Hs _]; [lia | lia |].
    destruct (disconnect_phase K d' (Z.of_nat N) _ j Hs) as (_ & Hlt & _);
      [lia|].
    destruct Hlt as (Hh & Hf & Hc); [lia|].
    rewrite Hh. simpl. repeat split; auto; try lia.
    unfold fd_open. rewrite Hf. simpl. now rewrite Z.eqb_refl.
  - intros s. subst s. rewrite run_app.
    destruct (connect_phase K d' e Hopen Hd N) as [Hs _]; [lia | lia |].
    destruct (disconnect_phase K d' (Z.of_nat N) _ N Hs) as (_ & _ & Heq);
      [lia|].
    destruct Heq as (Hh & Hf & Hc); [lia | lia |].
    rewrite Hh. simpl. repeat split; auto.
    unfold fd_open. now rewrite Hf.
Qed.

Lemma connect_disconnect_balanced_witness :
  (1 <= 3)%nat /\
  Forall succeeded (rets (run granting (repeat Connect 3) start)) /\
  fd_calls (world (run granting (repeat Connect 3 ++ repeat Disconnect 3)
                       start))
  = [EvOpen "/dev/iommu" 2 3; EvClose 3].
Proof.
  assert (H1 : (1 <= 3)%nat) by lia.
  assert (H2 : Forall succeeded (rets (run granting (repeat Connect 3) start)))
    by (repeat constructor).
  split; [exact H1|]. split; [exact H2|].
  apply (proj2 (connect_disconnect_balanced granting 3) H1 H2).
Defined.

(** ** The error exits of connect *)

(** C2.  Connect fails without touching the handle in both of its error
    cases.  With the counter at UINT32_MAX it returns -E2BIG and the error
    "too many connections"; the handle is the same afterwards, and no
    descriptor was opened or closed.  On a self-owned handle without users,
    when the device cannot be opened, it returns the negative result of the
    open and an error qualified by the [errno] of that open; the handle,
    counter and descriptor included, is the same afterwards. *)
Theorem connect_failure_keeps_handle
    {P : Platform} (K : Kernel) (be : IOMMUFDBackend.t) (w : World) :
  let r := iommufd_backend_connect K be w in
  let o := k_open K (w_log w) "/dev/iommu" O_RDWR in
  (IOMMUFDBackend.users be = UINT32_MAX ->
   fst r = (be, - E2BIG, Some (error_setg "too many connections")) /\
   w_fds (snd r) = w_fds w /\ w_errno (snd r) = w_errno w /\
   fd_calls (snd r) = fd_calls w) /\
  (IOMMUFDBackend.owned be = true -> IOMMUFDBackend.users be = 0 ->
   fst o < 0 ->
   fst r = (be, fst o,
            Some (error_setg_errno (snd o) "/dev/iommu opening failed")) /\
   w_fds (snd r) = w_fds w /\
   fd_calls (snd r) = fd_calls w ++ [EvOpen "/dev/iommu" O_RDWR (fst o)]).
Proof.
  intros r o. split.
  - intros Hmax. exact (connect_saturated K be w Hmax).
  - intros Ho Hu Hneg. exact (connect_open_fails K be w Ho Hu Hneg).
Qed.

Lemma connect_failure_keeps_handle_witness :
  let full := IOMMUFDBackend.mk 3 UINT32_MAX true in
  (IOMMUFDBackend.users full = UINT32_MAX /\
   fst (iommufd_backend_connect granting full boot)
   = (full, -7, Some (error_setg "too many connections"))) /\
  (fst (k_open refusing [] "/dev/iommu" O_RDWR) < 0 /\
   fst (iommufd_backend_connect refusing iommufd_backend_init boot)
   = (iommufd_backend_init, -1,
      Some (error_setg_errno 2 "/dev/iommu opening failed"))).
Proof.
  intros full. split; split.
  - reflexivity.
  - exact (proj1 (proj1 (connect_failure_keeps_handle granting full boot)
                          eq_refl)).
  - reflexivity.
  - exact (proj1 (proj2 (connect_failure_keeps_handle refusing
                           iommufd_backend_init boot)
                          eq_refl eq_refl eq_refl)).
Defined.

(** ** Disconnect *)

(** One disconnect on a handle that does not own its descriptor. *)
Lemma disconnect_borrowed {P : Platform} (be : IOMMUFDBackend.t) (w : World) :
  IOMMUFDBackend.owned be = false ->
  let r := iommufd_backend_disconnect be w in
  IOMMUFDBackend.owned (fst r) = false /\
  IOMMUFDBackend.fd (fst r) = IOMMUFDBackend.fd be /\
  w_fds (snd r) = w_fds w /\
  fd_calls (snd r) = fd_calls w.
Proof.
  intros Ho. destruct (Z.eq_dec (IOMMUFDBackend.users be) 0) as [Hz | Hnz].
  - destruct (disconnect_idle be w Hz) as (E1 & E2 & _ & E3).
    simpl. rewrite E1. auto.
  - destruct (disconnect_keeps be w Hnz (or_intror Ho)) as (E1 & E2 & _ & E3).
    simpl. rewrite E1. destruct be; simpl in *. auto.
Qed.

Lemma disconnects_borrowed {P : Platform} (K : Kernel) (n : nat) (s : Sys) :
  IOMMUFDBackend.owned (handle s) = false ->
  let s' := run K (repeat Disconnect n) s in
  IOMMUFDBackend.owned (handle s') = false /\
  IOMMUFDBackend.fd (handle s') = IOMMUFDBackend.fd (handle s) /\
  w_fds (world s') = w_fds (world s) /\
  fd_calls (world s') = fd_calls (world s).
Proof.
  intros Ho. induction n as [|n IH]; [simpl; auto|].
  rewrite repeat_snoc, run_snoc.
  destruct IH as (I1 & I2 & I3 & I4).
  set (t := run K (repeat Disconnect n) s) in *.
  destruct (disconnect_borrowed (handle t) (world t) I1) as (E1 & E2 & E3 & E4).
  unfold step. cbn [handle world]. intuition congruence.
Qed.

(** C3.  Disconnect with no user is a no-op: the handle, the open
    descriptors and [errno] are as before and no descriptor call is made, so
    the counter does not go below 0.  Otherwise the counter goes down by one;
    when it reaches 0 on a self-owned handle the descriptor is closed (one
    [close] of it) and reset to the unset value, and in every other case the
    descriptor is kept and no descriptor call is made.  On a handle that is
    not self-owned, any number of disconnects keeps the descriptor and makes
    no descriptor call. *)
Theorem disconnect_counts_down
    {P : Platform} (K : Kernel) (be : IOMMUFDBackend.t) (w : World) :
  in_u32 (IOMMUFDBackend.users be) ->
  let r := iommufd_backend_disconnect be w in
  (IOMMUFDBackend.users be = 0 ->
   fst r = be /\ w_fds (snd r) = w_fds w /\ w_errno (snd r) = w_errno w /\
   fd_calls (snd r) = fd_calls w) /\
  (0 < IOMMUFDBackend.users be ->
   IOMMUFDBackend.users (fst r) = IOMMUFDBackend.users be - 1 /\
   IOMMUFDBackend.owned (fst r) = IOMMUFDBackend.owned be /\
   if (IOMMUFDBackend.users be =? 1) && IOMMUFDBackend.owned be then
     IOMMUFDBackend.fd (fst r) = FD_UNSET /\
     w_fds (snd r) = List.remove Z.eq_dec (IOMMUFDBackend.fd be) (w_fds w) /\
     fd_calls (snd r) = fd_calls w ++ [EvClose (IOMMUFDBackend.fd be)]
   else
     IOMMUFDBackend.fd (fst r) = IOMMUFDBackend.fd be /\
     w_fds (snd r) = w_fds w /\
     fd_calls (snd r) = fd_calls w) /\
  (IOMMUFDBackend.owned be = false ->
   forall n : nat,
     let s := run K (repeat Disconnect n) (mkSys be w []) in
     IOMMUFDBackend.fd (handle s) = IOMMUFDBackend.fd be /\
     w_fds (world s) = w_fds w /\
     fd_calls (world s) = fd_calls w).
Proof.
  intros Hu r. split; [|split].
  - intros Hz. exact (disconnect_idle be w Hz).
  - intros Hpos. unfold in_u32 in Hu.
    assert (Hm : u32 (IOMMUFDBackend.users be - 1)
                 = IOMMUFDBackend.users be - 1)
      by (apply u32_small; unfold in_u32; lia).
    destruct (IOMMUFDBackend.users be =? 1) eqn:E1.
    + apply Z.eqb_eq in E1. destruct (IOMMUFDBackend.owned be) eqn:Eo.
      * destruct (disconnect_closes be w) as (R1 & R2 & R3);
          [lia | rewrite Hm; lia | exact Eo |].
        subst r. rewrite R1. simpl. rewrite E1. auto.
      * destruct (disconnect_keeps be w) as (R1 & R2 & _ & R3);
          [lia | right; exact Eo |].
        subst r. rewrite R1, Hm. destruct be; simpl in *. auto.
    + apply Z.eqb_neq in E1.
      destruct (disconnect_keeps be w) as (R1 & R2 & _ & R3);
        [lia | left; rewrite Hm; lia |].
      subst r. rewrite R1, Hm. destruct be; simpl in *. auto.
  - intros Ho n s.
    destruct (disconnects_borrowed K n (mkSys be w []) Ho)
      as (_ & E2 & E3 & E4).
    auto.
Qed.

Lemma disconnect_counts_down_witness :
  let be := IOMMUFDBackend.mk 3 1 true in
  let w := mkWorld 0 [3] [] in
  in_u32 (IOMMUFDBackend.users be) /\
  0 < IOMMUFDBackend.users be /\
  fst (iommufd_backend_disconnect be w) = IOMMUFDBackend.mk (-1) 0 true /\
  IOMMUFDBackend.users (fst (iommufd_backend_disconnect be w)) = 0.
Proof.
  intros be w.
  assert (H1 : in_u32 (IOMMUFDBackend.users be))
    by (split; vm_compute; discriminate).
  assert (H2 : 0 < IOMMUFDBackend.users be) by reflexivity.
  split; [exact H1|]. split; [exact H2|]. split; [reflexivity|].
  exact (proj1 (proj1 (proj2 (disconnect_counts_down granting be w H1)) H2)).
Defined.

(** ** The request wrappers *)

Lemma ioctl_eq (K : Kernel) (fd : Z) (c : cmd) (arg : payload c) (w : World) :
  ioctl K fd c arg w
  = ((k_status K w fd c arg, k_record K w fd c arg),
     mkWorld (k_errno K w fd c arg) (w_fds w)
             (w_log w ++ [EvIoctl fd c arg (k_status K w fd c arg)])).
Proof.
  unfold ioctl, k_status, k_errno, k_record.
  now destruct (k_ioctl K (w_log w) fd c arg) as [[r e] a].
Qed.

Lemma c_true_zero (x : Z) : x = 0 -> c_true x = false.
Proof. now intros ->. Qed.

Lemma c_true_nonzero (x : Z) : x <> 0 -> c_true x = true.
Proof. unfold c_true. intros H. apply Z.eqb_neq in H. now rewrite H. Qed.

Lemma c_not_zero (x : Z) : x = 0 -> c_not x = true.
Proof. now intros ->. Qed.

Lemma c_not_nonzero (x : Z) : x <> 0 -> c_not x = false.
Proof. unfold c_not. intros H. now apply Z.eqb_neq. Qed.

Lemma int_neg_small (e : Z) : - 2 ^ 31 < e <= 2 ^ 31 -> int_neg e = - e.
Proof.
  intros H. unfold int_neg, s32.
  rewrite Z.mod_small by lia. lia.
Qed.

Lemma land_lor_absorb (a b : Z) : Z.land (Z.lor a b) a = a.
Proof.
  apply Z.bits_inj'. intros n _.
  rewrite Z.land_spec, Z.lor_spec.
  destruct (Z.testbit a n), (Z.testbit b n); reflexivity.
Qed.

Lemma flag_set_lor_l (f x : Z) : flag_set f (Z.lor f x).
Proof. unfold flag_set. apply land_lor_absorb. Qed.

Lemma flag_set_lor_r (f x : Z) : flag_set f (Z.lor x f).
Proof. unfold flag_set. rewrite Z.lor_comm. apply land_lor_absorb. Qed.

Lemma flag_set_lor_mono (f x y : Z) : flag_set f x -> flag_set f (Z.lor x y).
Proof.
  unfold flag_set. intros H. rewrite Z.land_lor_distr_l, H.
  rewrite Z.land_comm. rewrite Z.lor_comm. apply Z.bits_inj'. intros n _.
  rewrite Z.lor_spec, Z.land_spec.
  destruct (Z.testbit f n), (Z.testbit y n); reflexivity.
Qed.

Lemma writeable_not_implied {P : Platform} :
  map_flags_independent ->
  ~ flag_set IOMMU_IOAS_MAP_WRITEABLE
      (Z.lor IOMMU_IOAS_MAP_READABLE IOMMU_IOAS_MAP_FIXED_IOVA).
Proof.
  intros (Hnz & Hr & Hf). unfold flag_set.
  rewrite Z.land_lor_distr_l, Hr, Hf. simpl. congruence.
Qed.

Ltac wrapper :=
  unfold bind; rewrite ioctl_eq; cbn [fst snd];
  unfold report_if, report_errno, status_of, requests, reports, fd_calls;
  io.

Ltac by_status K w fd c arg :=
  let E := fresh "E" in
  destruct (c_true (k_status K w fd c arg)) eqn:E; io;
  rewrite ?filter_app; simpl; rewrite ?app_nil_r; auto.

Section MapCopy.
Context {P : Platform} (K : Kernel).
Variables (be : IOMMUFDBackend.t) (ioas src_ioas dst_ioas iova size vaddr : Z).
Variables (readonly : bool) (w : World).

Lemma map_dma_requests :
  let fd := IOMMUFDBackend.fd be in
  let m := map_request ioas iova size vaddr readonly in
  requests (snd (iommufd_backend_map_dma K be ioas iova size vaddr readonly w))
  = requests w
    ++ [EvIoctl fd IOMMU_IOAS_MAP m (k_status K w fd IOMMU_IOAS_MAP m)].
Proof.
  intros fd m.
  unfold iommufd_backend_map_dma. fold m. fold fd. wrapper.
  by_status K w fd IOMMU_IOAS_MAP m.
Qed.

Lemma copy_dma_requests :
  let fd := IOMMUFDBackend.fd be in
  let c := copy_request src_ioas dst_ioas iova size readonly in
  requests (snd (iommufd_backend_copy_dma K be src_ioas dst_ioas iova size
                   readonly w))
  = requests w
    ++ [EvIoctl fd IOMMU_IOAS_COPY c (k_status K w fd IOMMU_IOAS_COPY c)].
Proof.
  intros fd c.
  unfold iommufd_backend_copy_dma. fold c. fold fd. wrapper.
  by_status K w fd IOMMU_IOAS_COPY c.
Qed.

Lemma map_dma_status :
  let fd := IOMMUFDBackend.fd be in
  let m := map_request ioas iova size vaddr readonly in
  let r := iommufd_backend_map_dma K be ioas iova size vaddr readonly w in
  fst r = (if c_not (k_status K w fd IOMMU_IOAS_MAP m) then 0
           else int_neg (w_errno (snd r))) /\
  (report_keeps_errno K ->
   w_errno (snd r) = k_errno K w fd IOMMU_IOAS_MAP m).
Proof.
  intros fd m r. subst r.
  unfold iommufd_backend_map_dma. fold m. fold fd. wrapper.
  unfold c_not, c_true.
  destruct (k_status K w fd IOMMU_IOAS_MAP m =? 0); io; auto.
Qed.

Lemma unmap_dma_status :
  let fd := IOMMUFDBackend.fd be in
  let u := unmap_request ioas iova size in
  let r := iommufd_backend_unmap_dma K be ioas iova size w in
  fst r = (if c_not (k_status K w fd IOMMU_IOAS_UNMAP u) then 0
           else int_neg (w_errno (snd r))) /\
  (report_keeps_errno K ->
   w_errno (snd r) = k_errno K w fd IOMMU_IOAS_UNMAP u).
Proof.
  intros fd u r. subst r.
  unfold iommufd_backend_unmap_dma. fold u. fold fd. wrapper.
  unfold c_not, c_true.
  destruct (k_status K w fd IOMMU_IOAS_UNMAP u =? 0); io; auto.
Qed.

Lemma copy_dma_status :
  let fd := IOMMUFDBackend.fd be in
  let c := copy_request src_ioas dst_ioas iova size readonly in
  let r := iommufd_backend_copy_dma K be src_ioas dst_ioas iova size
             readonly w in
  fst r = (if c_not (k_status K w fd IOMMU_IOAS_COPY c) then 0
           else int_neg (w_errno (snd r))) /\
  (report_keeps_errno K ->
   w_errno (snd r) = k_errno K w fd IOMMU_IOAS_COPY c).
Proof.
  intros fd c r. subst r.
  unfold iommufd_backend_copy_dma. fold c. fold fd. wrapper.
  unfold c_not, c_true.
  destruct (k_status K w fd IOMMU_IOAS_COPY c =? 0); io; auto.
Qed.

End MapCopy.

Lemma negated_errno_intro (status errno : Z) :
  negated_errno status errno (if c_not status then 0 else int_neg errno).
Proof.
  split.
  - intros ->. reflexivity.
  - intros H. rewrite (c_not_nonzero _ H). split; [reflexivity|].
    intros He. rewrite int_neg_small by lia. lia.
Qed.

(** C4.  The record that map hands to the kernel, and likewise the one of
    copy, has the readable flag and the fixed-IOVA flag set for every input,
    carries the IOVA of the caller as it was given (for copy, as source and
    as destination address), and has the writable flag set if and only if
    [readonly] is false.  The header is only required to keep the writable
    bit apart from the other two. *)
Theorem map_copy_request_flags
    {P : Platform} (K : Kernel) (be : IOMMUFDBackend.t)
    (ioas src_ioas dst_ioas iova size vaddr : Z) (readonly : bool)
    (w : World) :
  map_flags_independent ->
  let fd := IOMMUFDBackend.fd be in
  let m := map_request ioas iova size vaddr readonly in
  let c := copy_request src_ioas dst_ioas iova size readonly in
  (requests (snd (iommufd_backend_map_dma K be ioas iova size vaddr
                    readonly w))
   = requests w
     ++ [EvIoctl fd IOMMU_IOAS_MAP m (k_status K w fd IOMMU_IOAS_MAP m)] /\
   flag_set IOMMU_IOAS_MAP_READABLE (iommu_ioas_map.flags m) /\
   flag_set IOMMU_IOAS_MAP_FIXED_IOVA (iommu_ioas_map.flags m) /\
   iommu_ioas_map.iova m = iova /\
   (flag_set IOMMU_IOAS_MAP_WRITEABLE (iommu_ioas_map.flags m)
    <-> readonly = false)) /\
  (requests (snd (iommufd_backend_copy_dma K be src_ioas dst_ioas iova size
                    readonly w))
   = requests w
     ++ [EvIoctl fd IOMMU_IOAS_COPY c (k_status K w fd IOMMU_IOAS_COPY c)] /\
   flag_set IOMMU_IOAS_MAP_READABLE (iommu_ioas_copy.flags c) /\
   flag_set IOMMU_IOAS_MAP_FIXED_IOVA (iommu_ioas_copy.flags c) /\
   iommu_ioas_copy.src_iova c = iova /\
   iommu_ioas_copy.dst_iova c = iova /\
   (flag_set IOMMU_IOAS_MAP_WRITEABLE (iommu_ioas_copy.flags c)
    <-> readonly = false)).
Proof.
  intros Hind fd m c. pose proof (writeable_not_implied Hind) as Hw.
  split.
  - split; [apply map_dma_requests|].
    subst m. unfold map_request. destruct readonly; simpl.
    + repeat split; try discriminate;
        auto using flag_set_lor_l, flag_set_lor_r.
      intros H. contradiction.
    + repeat split;
        auto using flag_set_lor_l, flag_set_lor_r, flag_set_lor_mono.
  - split; [apply copy_dma_requests|].
    subst c. unfold copy_request. destruct readonly; simpl.
    + repeat split; try discriminate;
        auto using flag_set_lor_l, flag_set_lor_r.
      intros H. contradiction.
    + repeat split;
        auto using flag_set_lor_l, flag_set_lor_r, flag_set_lor_mono.
Qed.

Lemma linux_flags_independent : @map_flags_independent linux.
Proof. repeat split. discriminate. Qed.

Lemma map_copy_request_flags_witness :
  @map_flags_independent linux /\
  iommu_ioas_map.flags (map_request 1 4096 4096 140000000 true) = 5 /\
  (flag_set IOMMU_IOAS_MAP_WRITEABLE
     (iommu_ioas_map.flags (map_request 1 4096 4096 140000000 false))
   <-> false = false).
Proof.
  split; [exact linux_flags_independent|]. split; [reflexivity|].
  exact (proj2 (proj2 (proj2 (proj2 (proj1
           (map_copy_request_flags granting iommufd_backend_init
              1 1 2 4096 4096 140000000 false boot
              linux_flags_independent)))))).
Defined.

(** What map, unmap and copy return when the reports leave [errno] as
    they found it. *)
Lemma dma_status_when_reports_keep_errno
    {P : Platform} (K : Kernel) (be : IOMMUFDBackend.t)
    (ioas src_ioas dst_ioas iova size vaddr : Z) (readonly : bool)
    (w : World) :
  report_keeps_errno K ->
  let fd := IOMMUFDBackend.fd be in
  let m := map_request ioas iova size vaddr readonly in
  let u := unmap_request ioas iova size in
  let c := copy_request src_ioas dst_ioas iova size readonly in
  negated_errno (k_status K w fd IOMMU_IOAS_MAP m)
                (k_errno K w fd IOMMU_IOAS_MAP m)
    (fst (iommufd_backend_map_dma K be ioas iova size vaddr readonly w)) /\
  negated_errno (k_status K w fd IOMMU_IOAS_UNMAP u)
                (k_errno K w fd IOMMU_IOAS_UNMAP u)
    (fst (iommufd_backend_unmap_dma K be ioas iova size w)) /\
  negated_errno (k_status K w fd IOMMU_IOAS_COPY c)
                (k_errno K w fd IOMMU_IOAS_COPY c)
    (fst (iommufd_backend_copy_dma K be src_ioas dst_ioas iova size
            readonly w)).
Proof.
  intros Hk fd m u c. split; [|split].
  - destruct (map_dma_status K be ioas iova size vaddr readonly w)
      as [E1 E2]. cbv zeta in E1, E2. rewrite E1, (E2 Hk).
    apply negated_errno_intro.
  - destruct (unmap_dma_status K be ioas iova size w) as [E1 E2].
    cbv zeta in E1, E2. rewrite E1, (E2 Hk). apply negated_errno_intro.
  - destruct (copy_dma_status K be src_ioas dst_ioas iova size readonly w)
      as [E1 E2]. cbv zeta in E1, E2. rewrite E1, (E2 Hk).
    apply negated_errno_intro.
Qed.

(** C5.  Map, unmap and copy return 0 when the kernel grants the request.
    When it refuses they return the negation of [errno] as it stands at the
    [return], which is after the call of [error_report]: the code of the
    request only if the report left [errno] alone.  In a process whose
    standard error stream is closed, a request refused with [EINVAL] (22) is
    reported as 22 and the three calls return -9, the [EBADF] of the failed
    write of the report. *)
Theorem dma_returns_errno_at_return
    {P : Platform} (K : Kernel) (be : IOMMUFDBackend.t)
    (ioas src_ioas dst_ioas iova size vaddr : Z) (readonly : bool)
    (w : World) :
  let fd := IOMMUFDBackend.fd be in
  let m := map_request ioas iova size vaddr readonly in
  let u := unmap_request ioas iova size in
  let c := copy_request src_ioas dst_ioas iova size readonly in
  let rm := iommufd_backend_map_dma K be ioas iova size vaddr readonly w in
  let ru := iommufd_backend_unmap_dma K be ioas iova size w in
  let rc := iommufd_backend_copy_dma K be src_ioas dst_ioas iova size
              readonly w in
  fst rm = (if c_not (k_status K w fd IOMMU_IOAS_MAP m) then 0
            else int_neg (w_errno (snd rm))) /\
  fst ru = (if c_not (k_status K w fd IOMMU_IOAS_UNMAP u) then 0
            else int_neg (w_errno (snd ru))) /\
  fst rc = (if c_not (k_status K w fd IOMMU_IOAS_COPY c) then 0
            else int_neg (w_errno (snd rc))) /\
  (let be0 := IOMMUFDBackend.mk 3 1 true in
   k_status stderr_closed boot 3 IOMMU_IOAS_UNMAP (unmap_request 1 4096 4096)
   = -1 /\
   k_errno stderr_closed boot 3 IOMMU_IOAS_UNMAP (unmap_request 1 4096 4096)
   = 22 /\
   reports (snd (iommufd_backend_unmap_dma stderr_closed be0 1 4096 4096 boot))
   = [EvErrorReport "IOMMU_IOAS_UNMAP failed: %s" [22]] /\
   fst (iommufd_backend_unmap_dma stderr_closed be0 1 4096 4096 boot) = -9 /\
   fst (iommufd_backend_map_dma stderr_closed be0 1 4096 4096 140000000
          false boot) = -9 /\
   fst (iommufd_backend_copy_dma stderr_closed be0 1 2 4096 4096 false boot)
   = -9).
Proof.
  intros fd m u c rm ru rc.
  split; [exact (proj1 (map_dma_status K be ioas iova size vaddr readonly w))|].
  split; [exact (proj1 (unmap_dma_status K be ioas iova size w))|].
  split; [exact (proj1 (copy_dma_status K be src_ioas dst_ioas iova size
                          readonly w))|].
  repeat split.
Qed.

(** ** Allocation and release of ids *)

Section Ioas.
Context {P : Platform} (K : Kernel).
Variables (be : IOMMUFDBackend.t) (fd ioas0 id : Z) (w : World).

Lemma alloc_ioas_result :
  fst (iommufd_backend_alloc_ioas K fd ioas0 w)
  = (k_status K w fd IOMMU_IOAS_ALLOC alloc_ioas_request,
     iommu_ioas_alloc.out_ioas_id
       (k_record K w fd IOMMU_IOAS_ALLOC alloc_ioas_request)).
Proof.
  unfold iommufd_backend_alloc_ioas. wrapper.
  by_status K w fd IOMMU_IOAS_ALLOC alloc_ioas_request.
Qed.

Lemma alloc_ioas_requests :
  requests (snd (iommufd_backend_alloc_ioas K fd ioas0 w))
  = requests w
    ++ [EvIoctl fd IOMMU_IOAS_ALLOC alloc_ioas_request
                (k_status K w fd IOMMU_IOAS_ALLOC alloc_ioas_request)].
Proof.
  unfold iommufd_backend_alloc_ioas. wrapper.
  by_status K w fd IOMMU_IOAS_ALLOC alloc_ioas_request.
Qed.

Lemma alloc_ioas_reports :
  reports (snd (iommufd_backend_alloc_ioas K fd ioas0 w))
  = reports w
    ++ (if c_true (k_status K w fd IOMMU_IOAS_ALLOC alloc_ioas_request)
        then [EvErrorReport "Failed to allocate ioas %m"
                            [k_errno K w fd IOMMU_IOAS_ALLOC alloc_ioas_request]]
        else []).
Proof.
  unfold iommufd_backend_alloc_ioas. wrapper.
  by_status K w fd IOMMU_IOAS_ALLOC alloc_ioas_request.
Qed.

Lemma get_ioas_alloc_ioas :
  let a := iommufd_backend_alloc_ioas K (IOMMUFDBackend.fd be) ioas0 w in
  let g := iommufd_backend_get_ioas K be ioas0 w in
  fst g = fst a /\ requests (snd g) = requests (snd a) /\
  reports (snd g) = reports (snd a).
Proof.
  intros a g. subst a g. unfold iommufd_backend_get_ioas, bind.
  destruct (iommufd_backend_alloc_ioas K (IOMMUFDBackend.fd be) ioas0 w)
    as [[r i] w'].
  unfold requests, reports. io. rewrite !filter_app. simpl.
  rewrite !app_nil_r. auto.
Qed.

Lemma free_id_requests :
  requests (snd (iommufd_backend_free_id K fd id w))
  = requests w
    ++ [EvIoctl fd IOMMU_DESTROY (destroy_request id)
                (k_status K w fd IOMMU_DESTROY (destroy_request id))].
Proof.
  unfold iommufd_backend_free_id. wrapper.
  by_status K w fd IOMMU_DESTROY (destroy_request id).
Qed.

Lemma free_id_reports :
  reports (snd (iommufd_backend_free_id K fd id w))
  = reports w
    ++ (if c_true (k_status K w fd IOMMU_DESTROY (destroy_request id))
        then [EvErrorReport "Failed to free id: %u %m"
                            [id; k_errno K w fd IOMMU_DESTROY (destroy_request id)]]
        else []).
Proof.
  unfold iommufd_backend_free_id. wrapper.
  by_status K w fd IOMMU_DESTROY (destroy_request id).
Qed.

Lemma free_id_fds :
  w_fds (snd (iommufd_backend_free_id K fd id w)) = w_fds w.
Proof.
  unfold iommufd_backend_free_id. wrapper.
  by_status K w fd IOMMU_DESTROY (destroy_request id).
Qed.

End Ioas.

(** C6.  The allocation of an address space sends one request of fixed
    shape, with no flags, on the descriptor of the handle.  When the kernel
    grants it, the call returns 0 and the output cell holds the id the
    kernel produced.  When the kernel refuses, the call returns the nonzero
    status, so the caller is given no id, and the failure is reported; what
    the output cell then holds is the output field of the request record,
    which is the 0 of the initialiser when the kernel left the record as it
    was. *)
Theorem get_ioas_id_on_success
    {P : Platform} (K : Kernel) (be : IOMMUFDBackend.t) (ioas0 : Z)
    (w : World) :
  let fd := IOMMUFDBackend.fd be in
  let req := alloc_ioas_request in
  let status := k_status K w fd IOMMU_IOAS_ALLOC req in
  let answer := k_record K w fd IOMMU_IOAS_ALLOC req in
  let r := iommufd_backend_get_ioas K be ioas0 w in
  requests (snd r) = requests w ++ [EvIoctl fd IOMMU_IOAS_ALLOC req status] /\
  iommu_ioas_alloc.flags req = 0 /\
  fst (iommufd_backend_alloc_ioas K fd ioas0 w) = fst r /\
  (status = 0 ->
   fst r = (0, iommu_ioas_alloc.out_ioas_id answer) /\
   allocation_of (fst r)
   = Allocated (iommu_ioas_alloc.out_ioas_id answer) /\
   reports (snd r) = reports w) /\
  (status <> 0 ->
   fst (fst r) = status /\
   allocation_of (fst r) = KernelRequestFailed status /\
   reports (snd r)
   = reports w ++ [EvErrorReport "Failed to allocate ioas %m"
                                 [k_errno K w fd IOMMU_IOAS_ALLOC req]] /\
   snd (fst r) = iommu_ioas_alloc.out_ioas_id answer /\
   (answer = req -> snd (fst r) = 0)).
Proof.
  intros fd req status answer r.
  destruct (get_ioas_alloc_ioas K be ioas0 w) as (E1 & E2 & E3).
  fold r in E1, E2, E3. fold fd in E1, E2, E3.
  rewrite alloc_ioas_result in E1. rewrite alloc_ioas_requests in E2.
  rewrite alloc_ioas_reports in E3.
  fold req in E1, E2, E3. fold status in E1, E2, E3. fold answer in E1.
  split; [exact E2|]. split; [reflexivity|].
  split; [now rewrite alloc_ioas_result, E1|].
  rewrite E1, E3. unfold allocation_of. simpl. split.
  - intros H. rewrite H. simpl. rewrite app_nil_r. auto.
  - intros H. rewrite (c_true_nonzero _ H).
    apply Z.eqb_neq in H. rewrite H. repeat split.
    intros ->. reflexivity.
Qed.

Lemma get_ioas_id_on_success_witness :
  let be := IOMMUFDBackend.mk 3 1 true in
  let req := alloc_ioas_request in
  (k_status granting boot 3 IOMMU_IOAS_ALLOC req = 0 /\
   fst (iommufd_backend_get_ioas granting be 77 boot) = (0, 1)) /\
  (k_status refusing boot 3 IOMMU_IOAS_ALLOC req <> 0 /\
   k_record refusing boot 3 IOMMU_IOAS_ALLOC req = req /\
   fst (fst (iommufd_backend_get_ioas refusing be 77 boot)) = -1 /\
   snd (fst (iommufd_backend_get_ioas refusing be 77 boot)) = 0).
Proof.
  intros be req.
  assert (H1 : k_status refusing boot 3 IOMMU_IOAS_ALLOC req <> 0)
    by discriminate.
  pose proof (get_ioas_id_on_success granting be 77 boot) as G.
  pose proof (get_ioas_id_on_success refusing be 77 boot) as R.
  cbv zeta in G, R.
  destruct G as (_ & _ & _ & G & _). destruct R as (_ & _ & _ & _ & R).
  split; [split; [reflexivity | exact (proj1 (G eq_refl))]|].
  split; [exact H1|]. split; [reflexivity|].
  destruct (R H1) as (R1 & _ & _ & _ & R2).
  split; [exact R1 | exact (R2 eq_refl)].
Defined.

(** C7.  Releasing an id sends one destroy request for it and returns
    nothing: the result is the same whatever the kernel answers.  A refused
    destroy shows only in the diagnostics, as one report carrying the id and
    [errno]; a granted one leaves no report.  Releasing an address space
    through the handle is the same call on the descriptor of the handle,
    after a trace. *)
Theorem free_id_reports_only
    {P : Platform} (K : Kernel) (be : IOMMUFDBackend.t) (fd id : Z)
    (w : World) :
  let des := destroy_request id in
  let status := k_status K w fd IOMMU_DESTROY des in
  let r := iommufd_backend_free_id K fd id w in
  fst r = tt /\
  (forall (K' : Kernel) (w' : World),
     fst (iommufd_backend_free_id K' fd id w') = fst r) /\
  requests (snd r) = requests w ++ [EvIoctl fd IOMMU_DESTROY des status] /\
  iommu_destroy.id des = id /\
  reports (snd r)
  = reports w
    ++ (if status =? 0 then []
        else [EvErrorReport "Failed to free id: %u %m"
                            [id; k_errno K w fd IOMMU_DESTROY des]]) /\
  w_fds (snd r) = w_fds w /\
  iommufd_backend_put_ioas K be id w
  = iommufd_backend_free_id K (IOMMUFDBackend.fd be) id
      (snd (trace "iommufd_backend_put_ioas" [IOMMUFDBackend.fd be; id] w)).
Proof.
  intros des status r. split; [now destruct (fst r)|].
  split; [intros K' w'; now destruct (fst r), (fst _)|].
  split; [apply free_id_requests|]. split; [reflexivity|].
  split; [|split; [apply free_id_fds | reflexivity]].
  subst r. rewrite free_id_reports. fold des. fold status.
  unfold c_true. now destruct (status =? 0).
Qed.

(** ** Output cells of the page-table, event and PASID requests *)

Section Outputs.
Context {P : Platform} (K : Kernel).
Variables (iommufd : Z) (w : World).

Lemma alloc_hwpt_result
    (flags dev_id hwpt_type parent data_type data data_len out0 : Z) :
  let req := alloc_hwpt_request flags dev_id hwpt_type parent data_type data
               data_len in
  let status := k_status K w iommufd IOMMU_ALLOC_HWPT req in
  let r := iommufd_backend_alloc_hwpt K iommufd flags dev_id hwpt_type parent
             data_type data data_len out0 w in
  fst r
  = if c_true status
    then (int_neg (w_errno (snd r)), out0)
    else (0, iommu_alloc_hwpt.out_hwpt_id
               (k_record K w iommufd IOMMU_ALLOC_HWPT req)).
Proof.
  intros req status r. subst r.
  unfold iommufd_backend_alloc_hwpt. fold req. wrapper.
  fold status. unfold c_not, c_true. destruct (status =? 0); reflexivity.
Qed.


Lemma add_hwpt_event_result (dev_id hwpt eventfd out0 : Z) :
  let req := add_hwpt_event_request dev_id hwpt eventfd in
  let status := k_status K w iommufd IOMMU_ADD_HWPT_EVENT req in
  let r := iommufd_backend_add_hwpt_event K iommufd dev_id hwpt eventfd
             out0 w in
  fst r
  = if c_true status
    then (int_neg (w_errno (snd r)), out0)
    else (0, iommu_add_hwpt_event.out_fd
               (k_record K w iommufd IOMMU_ADD_HWPT_EVENT req)).
Proof.
  intros req status r. subst r.
  unfold iommufd_backend_add_hwpt_event. fold req. wrapper.
  fold status. unfold c_not, c_true. destruct (status =? 0); reflexivity.
Qed.


Lemma alloc_pasid_result (min max : Z) (identical : bool) (pasid0 : Z) :
  let req := alloc_pasid_request min max identical pasid0 in
  let status := k_status K w iommufd IOMMU_ALLOC_PASID req in
  let r := iommufd_backend_alloc_pasid K iommufd min max identical pasid0 w in
  fst r
  = if c_true status
    then (int_neg (w_errno (snd r)), pasid0)
    else (0, iommu_alloc_pasid.pasid
               (k_record K w iommufd IOMMU_ALLOC_PASID req)).
Proof.
  intros req status r. subst r.
  unfold iommufd_backend_alloc_pasid. fold req. wrapper.
  fold status. unfold c_not, c_true. destruct (status =? 0); reflexivity.
Qed.



End Outputs.





(** C10.  The allocation of a page table, the registration of an event and
    the allocation of a PASID store through their output pointer only when
    the kernel grants the request, and then they store the value of the
    kernel.  When it refuses, the cell of the caller holds after the call
    what it held before. *)
Theorem outputs_kept_on_failure
    {P : Platform} (K : Kernel) (iommufd : Z)
    (flags dev_id hwpt_type parent data_type data data_len : Z)
    (hwpt eventfd min max : Z) (identical : bool) (out0 : Z) (w : World) :
  let hreq := alloc_hwpt_request flags dev_id hwpt_type parent data_type data
                data_len in
  let ereq := add_hwpt_event_request dev_id hwpt eventfd in
  let preq := alloc_pasid_request min max identical out0 in
  let h := iommufd_backend_alloc_hwpt K iommufd flags dev_id hwpt_type parent
             data_type data data_len out0 w in
  let e := iommufd_backend_add_hwpt_event K iommufd dev_id hwpt eventfd
             out0 w in
  let p := iommufd_backend_alloc_pasid K iommufd min max identical out0 w in
  ((k_status K w iommufd IOMMU_ALLOC_HWPT hreq <> 0 -> snd (fst h) = out0) /\
   (k_status K w iommufd IOMMU_ALLOC_HWPT hreq = 0 ->
    snd (fst h)
    = iommu_alloc_hwpt.out_hwpt_id
        (k_record K w iommufd IOMMU_ALLOC_HWPT hreq))) /\
  ((k_status K w iommufd IOMMU_ADD_HWPT_EVENT ereq <> 0 ->
    snd (fst e) = out0) /\
   (k_status K w iommufd IOMMU_ADD_HWPT_EVENT ereq = 0 ->
    snd (fst e)
    = iommu_add_hwpt_event.out_fd
        (k_record K w iommufd IOMMU_ADD_HWPT_EVENT ereq))) /\
  ((k_status K w iommufd IOMMU_ALLOC_PASID preq <> 0 -> snd (fst p) = out0) /\
   (k_status K w iommufd IOMMU_ALLOC_PASID preq = 0 ->
    snd (fst p)
    = iommu_alloc_pasid.pasid
        (k_record K w iommufd IOMMU_ALLOC_PASID preq))).
Proof.
  intros hreq ereq preq h e p. subst h e p.
  rewrite alloc_hwpt_result, add_hwpt_event_result, alloc_pasid_result.
  fold hreq. fold ereq. fold preq.
  repeat split; intros H;
    rewrite ?(c_true_nonzero _ H), ?(c_true_zero _ H); reflexivity.
Qed.

Lemma outputs_kept_on_failure_witness :
  k_status refusing boot 3 IOMMU_ALLOC_HWPT
    (alloc_hwpt_request 0 7 1 2 0 0 0) <> 0 /\
  snd (fst (iommufd_backend_alloc_hwpt refusing 3 0 7 1 2 0 0 0 99 boot))
  = 99 /\
  k_status granting boot 3 IOMMU_ALLOC_HWPT
    (alloc_hwpt_request 0 7 1 2 0 0 0) = 0 /\
  snd (fst (iommufd_backend_alloc_hwpt granting 3 0 7 1 2 0 0 0 99 boot)) = 1.
Proof.
  assert (H1 : k_status refusing boot 3 IOMMU_ALLOC_HWPT
                 (alloc_hwpt_request 0 7 1 2 0 0 0) <> 0) by discriminate.
  split; [exact H1|]. split.
  - exact (proj1 (proj1 (outputs_kept_on_failure refusing 3 0 7 1 2 0 0 0
                           2 4 1 8 false 99 boot)) H1).
  - split; [reflexivity|].
    exact (proj2 (proj1 (outputs_kept_on_failure granting 3 0 7 1 2 0 0 0
                           2 4 1 8 false 99 boot)) eq_refl).
Defined.

(** ** Destruction *)

Lemma finalize_owned {P : Platform} (be : IOMMUFDBackend.t) (w : World) :
  IOMMUFDBackend.owned be = true ->
  let r := iommufd_backend_finalize be w in
  fst r = IOMMUFDBackend.set_fd (-1) be /\
  w_fds (snd r) = List.remove Z.eq_dec (IOMMUFDBackend.fd be) (w_fds w) /\
  fd_calls (snd r) = fd_calls w ++ [EvClose (IOMMUFDBackend.fd be)].
Proof.
  intros Ho. unfold iommufd_backend_finalize. rewrite Ho.
  unfold close, fd_calls. io. rewrite filter_app. auto.
Qed.

Lemma finalize_borrowed {P : Platform} (be : IOMMUFDBackend.t) (w : World) :
  IOMMUFDBackend.owned be = false ->
  iommufd_backend_finalize be w = (be, w).
Proof.
  intros Ho. unfold iommufd_backend_finalize. now rewrite Ho.
Qed.

(** C9.  Destruction releases a descriptor of the process only when the
    handle is self-owned and its descriptor is still open, and then it is
    that descriptor, which is not the unset value; a self-owned handle with
    an open descriptor does get it closed, and is left unset.  Destruction
    of a handle that is not self-owned closes nothing: it makes no call and
    leaves the handle as it is.  (On a self-owned handle whose descriptor is
    already unset the [close] is still called, on the unset value, and
    releases nothing.) *)
Theorem finalize_closes_owned_open
    {P : Platform} (be : IOMMUFDBackend.t) (w : World) :
  fds_valid w ->
  let r := iommufd_backend_finalize be w in
  (forall d : Z,
     In d (w_fds w) -> ~ In d (w_fds (snd r)) ->
     IOMMUFDBackend.owned be = true /\ IOMMUFDBackend.fd be = d /\
     d <> FD_UNSET) /\
  (IOMMUFDBackend.owned be = true -> In (IOMMUFDBackend.fd be) (w_fds w) ->
   ~ In (IOMMUFDBackend.fd be) (w_fds (snd r)) /\
   IOMMUFDBackend.fd (fst r) = FD_UNSET /\
   fd_calls (snd r) = fd_calls w ++ [EvClose (IOMMUFDBackend.fd be)]) /\
  (IOMMUFDBackend.owned be = false -> fst r = be /\ snd r = w) /\
  (IOMMUFDBackend.owned be = true -> IOMMUFDBackend.fd be = FD_UNSET ->
   fst r = be /\ w_fds (snd r) = w_fds w /\
   fd_calls (snd r) = fd_calls w ++ [EvClose FD_UNSET]).
Proof.
  intros Hv r. unfold fds_valid in Hv. rewrite Forall_forall in Hv.
  split; [|split; [|split]].
  - intros d Hin Hout. destruct (IOMMUFDBackend.owned be) eqn:Ho.
    + destruct (finalize_owned be w Ho) as (_ & E2 & _). fold r in E2.
      rewrite E2 in Hout.
      destruct (Z.eq_dec (IOMMUFDBackend.fd be) d) as [Heq | Hne].
      * split; [reflexivity|]. split; [exact Heq|].
        specialize (Hv d Hin). unfold FD_UNSET. lia.
      * exfalso. apply Hout. apply in_in_remove; auto.
    + subst r. rewrite (finalize_borrowed be w Ho) in Hout. contradiction.
  - intros Ho Hin. destruct (finalize_owned be w Ho) as (E1 & E2 & E3).
    fold r in E1, E2, E3. rewrite E1, E2. split; [apply remove_In|].
    split; [reflexivity | exact E3].
  - intros Ho. subst r. now rewrite (finalize_borrowed be w Ho).
  - intros Ho Hu. destruct (finalize_owned be w Ho) as (E1 & E2 & E3).
    fold r in E1, E2, E3. rewrite E1, E2, E3, Hu. split; [|split].
    + destruct be; simpl in *. now subst.
    + apply notin_remove. intros Hin. specialize (Hv _ Hin).
      unfold FD_UNSET in Hv. lia.
    + reflexivity.
Qed.

Lemma finalize_closes_owned_open_witness :
  let be := IOMMUFDBackend.mk 3 0 true in
  let w := mkWorld 0 [3; 4] [] in
  fds_valid w /\ IOMMUFDBackend.owned be = true /\
  In (IOMMUFDBackend.fd be) (w_fds w) /\
  w_fds (snd (iommufd_backend_finalize be w)) = [4] /\
  ~ In (IOMMUFDBackend.fd be) (w_fds (snd (iommufd_backend_finalize be w))).
Proof.
  intros be w.
  assert (H1 : fds_valid w).
  { unfold fds_valid. simpl. repeat constructor; discriminate. }
  assert (H2 : In (IOMMUFDBackend.fd be) (w_fds w)) by (left; reflexivity).
  split; [exact H1|]. split; [reflexivity|]. split; [exact H2|].
  split; [reflexivity|].
  exact (proj1 (proj1 (proj2 (finalize_closes_owned_open be w H1))
                  eq_refl H2)).
Defined.

(** * Further properties of the handle *)

(** ** What a connect does to the handle *)

Lemma connect_cases {P : Platform} (K : Kernel) (be : IOMMUFDBackend.t)
    (w : World) :
  in_u32 (IOMMUFDBackend.users be) ->
  let r := iommufd_backend_connect K be w in
  (snd (fst r) = None /\ snd (fst (fst r)) = 0 /\
   IOMMUFDBackend.users (fst (fst (fst r))) = IOMMUFDBackend.users be + 1 /\
   IOMMUFDBackend.owned (fst (fst (fst r))) = IOMMUFDBackend.owned be /\
   in_u32 (IOMMUFDBackend.users (fst (fst (fst r))))) \/
  ((exists e : Error, snd (fst r) = Some e) /\ fst (fst (fst r)) = be).
Proof.
  intros Hu r. unfold in_u32 in Hu.
  destruct (Z.eq_dec (IOMMUFDBackend.users be) UINT32_MAX) as [Hmax | Hmax].
  { right. destruct (connect_saturated K be w Hmax) as (E1 & _).
    fold r in E1. rewrite E1. simpl. eauto. }
  destruct (IOMMUFDBackend.owned be) eqn:Ho.
  - destruct (Z.eq_dec (IOMMUFDBackend.users be) 0) as [H0 | H0].
    + destruct (k_open K (w_log w) "/dev/iommu" O_RDWR) as [d e] eqn:Hk.
      destruct (Z_lt_le_dec d 0) as [Hneg | Hpos].
      * right. destruct (connect_open_fails K be w Ho H0) as (E1 & _).
        { rewrite Hk. exact Hneg. }
        fold r in E1. rewrite E1. simpl. eauto.
      * left. destruct (connect_opens K be w d e H0 Ho Hk Hpos) as (E1 & _).
        fold r in E1. rewrite E1, H0. simpl.
        unfold in_u32, UINT32_MAX. repeat split; lia.
    + left. destruct (connect_shares K be w) as (E1 & _); [lia | right; lia |].
      fold r in E1. rewrite E1. destruct be as [f u o]. simpl in *.
      unfold in_u32. repeat split; auto; lia.
  - left.
    destruct (connect_shares K be w) as (E1 & _); [lia | left; exact Ho |].
    fold r in E1. rewrite E1. destruct be as [f u o]. simpl in *.
    unfold in_u32. repeat split; auto; lia.
Qed.

(** X3.  A connect either takes a reference or fails, never both: it
    returns 0, sets no error and raises the counter by exactly one (which
    stays within the range of the counter, so it never wraps), or it sets an
    error and leaves the whole handle as it was. *)
Theorem connect_takes_reference_or_fails
    {P : Platform} (K : Kernel) (be : IOMMUFDBackend.t) (w : World) :
  in_u32 (IOMMUFDBackend.users be) ->
  let r := iommufd_backend_connect K be w in
  let be' := fst (fst (fst r)) in
  (snd (fst r) = None /\ snd (fst (fst r)) = 0 /\
   IOMMUFDBackend.users be' = IOMMUFDBackend.users be + 1 /\
   IOMMUFDBackend.owned be' = IOMMUFDBackend.owned be /\
   in_u32 (IOMMUFDBackend.users be')) \/
  ((exists e : Error, snd (fst r) = Some e) /\ be' = be).
Proof. intros Hu. exact (connect_cases K be w Hu). Qed.

Lemma connect_takes_reference_or_fails_witness :
  let be := IOMMUFDBackend.mk 3 7 true in
  in_u32 (IOMMUFDBackend.users be) /\
  (IOMMUFDBackend.users
     (fst (fst (fst (iommufd_backend_connect granting be boot)))) = 8 \/
   fst (fst (fst (iommufd_backend_connect granting be boot))) = be).
Proof.
  intros be.
  assert (H : in_u32 (IOMMUFDBackend.users be))
    by (split; vm_compute; discriminate).
  split; [exact H|].
  destruct (connect_takes_reference_or_fails granting be boot H)
    as [(_ & _ & E & _) | (_ & E)].
  - left. exact E.
  - right. exact E.
Defined.

(** ** Handles on a descriptor supplied from outside *)

Lemma connect_borrowed {P : Platform} (K : Kernel) (be : IOMMUFDBackend.t)
    (w : World) :
  IOMMUFDBackend.owned be = false ->
  let r := iommufd_backend_connect K be w in
  IOMMUFDBackend.owned (fst (fst (fst r))) = false /\
  IOMMUFDBackend.fd (fst (fst (fst r))) = IOMMUFDBackend.fd be /\
  w_fds (snd r) = w_fds w /\
  fd_calls (snd r) = fd_calls w.
Proof.
  destruct be as [f u o]. simpl. intros ->.
  unfold iommufd_backend_connect, connect_out. simpl.
  destruct (u =? UINT32_MAX); io; unfold fd_calls; simpl;
    rewrite filter_app; simpl; rewrite app_nil_r; auto.
Qed.

Lemma run_borrowed {P : Platform} (K : Kernel) (cs : list call) (s : Sys) :
  IOMMUFDBackend.owned (handle s) = false ->
  let s' := run K cs s in
  IOMMUFDBackend.owned (handle s') = false /\
  IOMMUFDBackend.fd (handle s') = IOMMUFDBackend.fd (handle s) /\
  w_fds (world s') = w_fds (world s) /\
  fd_calls (world s') = fd_calls (world s).
Proof.
  intros Ho. induction cs as [|c cs IH] using rev_ind; [simpl; auto|].
  rewrite run_snoc. destruct IH as (I1 & I2 & I3 & I4).
  set (t := run K cs s) in *.
  destruct c; unfold step; cbn [handle world].
  - destruct (connect_borrowed K (handle t) (world t) I1)
      as (E1 & E2 & E3 & E4).
    intuition congruence.
  - destruct (disconnect_borrowed (handle t) (world t) I1)
      as (E1 & E2 & E3 & E4).
    intuition congruence.
Qed.

Lemma set_fd_result {P : Platform} (K : Kernel) (be : IOMMUFDBackend.t)
    (str : string) (w : World) :
  let a := k_monitor_fd K (w_log w) str in
  iommufd_backend_set_fd K be str w
  = if fst a =? -1 then
      ((be, option_map
              (error_prepend
                 ("Could not parse remote object fd " ++ str ++ ":"))
              (snd a)),
       w)
    else
      ((IOMMUFDBackend.mk (fst a) (IOMMUFDBackend.users be) false, snd a),
       mkWorld (w_errno w) (w_fds w)
               (w_log w ++ [EvTrace "iommu_backend_set_fd" [fst a]])).
Proof.
  intros a. subst a. unfold iommufd_backend_set_fd, monitor_fd_param. io.
  destruct (k_monitor_fd K (w_log w) str) as [fd err]. simpl.
  destruct (fd =? -1); reflexivity.
Qed.

(** X1.  Setting the descriptor from outside.  When the reference does not
    resolve (the monitor gives -1) the handle and the process are as before
    and the error of the monitor is passed on with the prefix "Could not
    parse remote object fd <str>:".  When it resolves, the handle holds the
    given descriptor and is no longer self-owned, its counter is as before,
    and nothing is opened or closed: the descriptor that the handle held
    before is not closed. *)
Theorem set_fd_replaces_descriptor
    {P : Platform} (K : Kernel) (be : IOMMUFDBackend.t) (str : string)
    (w : World) :
  let a := k_monitor_fd K (w_log w) str in
  let r := iommufd_backend_set_fd K be str w in
  (fst a = -1 ->
   fst (fst r) = be /\ snd r = w /\
   snd (fst r)
   = option_map
       (error_prepend ("Could not parse remote object fd " ++ str ++ ":"))
       (snd a)) /\
  (fst a <> -1 ->
   fst (fst r) = IOMMUFDBackend.mk (fst a) (IOMMUFDBackend.users be) false /\
   snd (fst r) = snd a /\
   w_errno (snd r) = w_errno w /\
   w_fds (snd r) = w_fds w /\
   fd_calls (snd r) = fd_calls w).
Proof.
  intros a r. subst r. rewrite set_fd_result. fold a. split.
  - intros H. rewrite H. simpl. auto.
  - intros H. apply Z.eqb_neq in H. rewrite H. simpl.
    unfold fd_calls. simpl. rewrite filter_app. simpl.
    rewrite app_nil_r. auto.
Qed.

Lemma set_fd_replaces_descriptor_witness :
  let be := IOMMUFDBackend.mk 3 2 true in
  let w := mkWorld 0 [3] [] in
  (fst (k_monitor_fd granting (w_log w) "remote") <> -1 /\
   fst (fst (iommufd_backend_set_fd granting be "remote" w))
   = IOMMUFDBackend.mk 5 2 false /\
   w_fds (snd (iommufd_backend_set_fd granting be "remote" w)) = [3]) /\
  (fst (k_monitor_fd refusing (w_log w) "remote") = -1 /\
   fst (fst (iommufd_backend_set_fd refusing be "remote" w)) = be).
Proof.
  intros be w.
  assert (H1 : fst (k_monitor_fd granting (w_log w) "remote") <> -1)
    by discriminate.
  pose proof (proj2 (set_fd_replaces_descriptor granting be "remote" w) H1)
    as (E1 & _ & _ & E2 & _).
  pose proof (proj1 (set_fd_replaces_descriptor refusing be "remote" w)
                eq_refl) as (E3 & _).
  split; [split; [exact H1 | split; [exact E1 | exact E2]]|].
  split; [reflexivity | exact E3].
Defined.

(** X2.  A handle that is not self-owned never opens the device and never
    closes anything: after any sequence of connects and disconnects, with
    any answers of the kernel, and after the destruction of the handle at
    the end, the handle still holds the descriptor it held at the start, the
    descriptors open in the process are the same, and no call on a
    descriptor was made. *)
Theorem borrowed_descriptor_untouched
    {P : Platform} (K : Kernel) (be : IOMMUFDBackend.t) (w : World)
    (cs : list call) :
  IOMMUFDBackend.owned be = false ->
  let s := run K cs (mkSys be w []) in
  let f := iommufd_backend_finalize (handle s) (world s) in
  IOMMUFDBackend.fd (handle s) = IOMMUFDBackend.fd be /\
  IOMMUFDBackend.fd (fst f) = IOMMUFDBackend.fd be /\
  IOMMUFDBackend.owned (fst f) = false /\
  w_fds (snd f) = w_fds w /\
  fd_calls (snd f) = fd_calls w.
Proof.
  intros Ho s f.
  destruct (run_borrowed K cs (mkSys be w []) Ho) as (E1 & E2 & E3 & E4).
  fold s in E1, E2, E3, E4. cbn [handle world] in E2, E3, E4.
  subst f. rewrite (finalize_borrowed (handle s) (world s) E1). simpl.
  auto.
Qed.

Lemma borrowed_descriptor_untouched_witness :
  let be := IOMMUFDBackend.mk 5 0 false in
  let w := mkWorld 0 [5] [] in
  let cs := [Connect; Disconnect; Disconnect; Connect] in
  IOMMUFDBackend.owned be = false /\
  w_fds (snd (iommufd_backend_finalize
                (handle (run granting cs (mkSys be w [])))
                (world (run granting cs (mkSys be w []))))) = [5].
Proof.
  intros be w cs. split; [reflexivity|].
  exact (proj1 (proj2 (proj2 (proj2
           (borrowed_descriptor_untouched granting be w cs eq_refl))))).
Defined.

(** ** Connect then disconnect *)

(** X4.  A connect that succeeds followed by a disconnect gives the handle
    back as it was, for a handle that is within the range of its counter and,
    when self-owned without users, has its descriptor unset.  The descriptors
    open in the process are also as before, provided that the descriptor an
    open returns is not one that is already open. *)
Theorem connect_disconnect_roundtrip
    {P : Platform} (K : Kernel) (be : IOMMUFDBackend.t) (w : World) :
  in_u32 (IOMMUFDBackend.users be) ->
  (IOMMUFDBackend.owned be = true -> IOMMUFDBackend.users be = 0 ->
   IOMMUFDBackend.fd be = FD_UNSET) ->
  let r := iommufd_backend_connect K be w in
  snd (fst r) = None ->
  let r2 := iommufd_backend_disconnect (fst (fst (fst r))) (snd r) in
  fst r2 = be /\
  (~ In (fst (k_open K (w_log w) "/dev/iommu" O_RDWR)) (w_fds w) ->
   w_fds (snd r2) = w_fds w).
Proof.
  intros Hu Hunset r Hok r2. unfold in_u32 in Hu.
  destruct (Z.eq_dec (IOMMUFDBackend.users be) UINT32_MAX) as [Hmax | Hmax].
  { destruct (connect_saturated K be w Hmax) as (E1 & _).
    fold r in E1. rewrite E1 in Hok. discriminate Hok. }
  assert (Hshare :
    IOMMUFDBackend.owned be = false \/ 0 < IOMMUFDBackend.users be ->
    fst r2 = be /\ w_fds (snd r2) = w_fds w).
  { intros Hs.
    destruct (connect_shares K be w) as (E1 & E2 & _); [lia | exact Hs |].
    fold r in E1, E2. subst r2. rewrite E1. cbn [fst].
    set (be' := IOMMUFDBackend.set_users (IOMMUFDBackend.users be + 1) be).
    assert (Hbe' : IOMMUFDBackend.users be' = IOMMUFDBackend.users be + 1)
      by reflexivity.
    assert (Hm : u32 (IOMMUFDBackend.users be' - 1) = IOMMUFDBackend.users be).
    { rewrite Hbe'. rewrite u32_small by (unfold in_u32; lia). lia. }
    destruct (disconnect_keeps be' (snd r)) as (R1 & R2 & _).
    { lia. }
    { rewrite Hm. destruct Hs as [Hs | Hs]; [right; exact Hs | left; lia]. }
    rewrite R1, R2, Hm, E2. subst be'. destruct be; auto. }
  destruct (IOMMUFDBackend.owned be) eqn:Ho;
    [|destruct Hshare as [H1 H2]; auto].
  destruct (Z.eq_dec (IOMMUFDBackend.users be) 0) as [H0 | H0];
    [|destruct Hshare as [H1 H2]; [right; lia | auto]].
  destruct (k_open K (w_log w) "/dev/iommu" O_RDWR) as [d e] eqn:Hk.
  destruct (Z_lt_le_dec d 0) as [Hneg | Hpos].
  { destruct (connect_open_fails K be w Ho H0) as (E1 & _).
    { rewrite Hk. exact Hneg. }
    fold r in E1. rewrite E1 in Hok. discriminate Hok. }
  destruct (connect_opens K be w d e H0 Ho Hk Hpos) as (E1 & E2 & _).
  fold r in E1, E2. subst r2. rewrite E1. cbn [fst].
  destruct (disconnect_closes (IOMMUFDBackend.mk d 1 true) (snd r))
    as (R1 & R2 & _); [discriminate | reflexivity | reflexivity |].
  rewrite R1, R2, E2. simpl. split.
  - specialize (Hunset eq_refl H0). destruct be as [f u o].
    simpl in *. subst. reflexivity.
  - intros Hfresh. destruct (Z.eq_dec d d); [|contradiction].
    now apply notin_remove.
Qed.

Lemma connect_disconnect_roundtrip_witness :
  let be := iommufd_backend_init in
  let w := mkWorld 0 [4] [] in
  in_u32 (IOMMUFDBackend.users be) /\
  snd (fst (iommufd_backend_connect granting be w)) = None /\
  ~ In (fst (k_open granting (w_log w) "/dev/iommu" O_RDWR)) (w_fds w) /\
  fst (iommufd_backend_disconnect
         (fst (fst (fst (iommufd_backend_connect granting be w))))
         (snd (iommufd_backend_connect granting be w))) = be /\
  w_fds (snd (iommufd_backend_disconnect
                (fst (fst (fst (iommufd_backend_connect granting be w))))
                (snd (iommufd_backend_connect granting be w)))) = [4].
Proof.
  intros be w.
  assert (H1 : in_u32 (IOMMUFDBackend.users be))
    by (split; vm_compute; discriminate).
  assert (H2 : ~ In (fst (k_open granting (w_log w) "/dev/iommu" O_RDWR))
                    (w_fds w)).
  { simpl. intros [H | H]; [discriminate H | exact H]. }
  destruct (connect_disconnect_roundtrip granting be w H1
              (fun _ _ => eq_refl) eq_refl) as [E1 E2].
  split; [exact H1|]. split; [reflexivity|]. split; [exact H2|].
  split; [exact E1 | exact (E2 H2)].
Defined.

(** ** Opens and closes over any sequence of calls *)

Lemma opened_fds_valid (w : World) : Forall (fun d => 0 <= d) (opened_fds w).
Proof.
  unfold opened_fds. induction (fd_calls w) as [|e l IH]; [constructor|].
  simpl. apply Forall_app. split; [|exact IH].
  destruct e; simpl; try constructor.
  destruct (res <? 0) eqn:E; constructor; [|constructor].
  apply Z.ltb_ge in E. exact E.
Qed.

Lemma step_paired {P : Platform} (K : Kernel) (s : Sys) (c : call) :
  self_owned_inv s -> paired s -> paired (step K s c).
Proof.
  destruct s as [be w rs]. unfold self_owned_inv, paired.
  cbn [handle world]. intros (Ho & Hu & Hz & Hp) Hpair.
  unfold in_u32 in Hu. unfold opened_fds, closed_fds in *.
  destruct c; unfold step; cbn [handle world rets].
  - destruct (Z.eq_dec (IOMMUFDBackend.users be) UINT32_MAX) as [Hmax | Hmax].
    { destruct (connect_saturated K be w Hmax) as (E1 & _ & _ & E3).
      rewrite E1, E3. exact Hpair. }
    destruct (Z.eq_dec (IOMMUFDBackend.users be) 0) as [H0 | H0].
    + destruct (k_open K (w_log w) "/dev/iommu" O_RDWR) as [d e] eqn:Hk.
      destruct (Z_lt_le_dec d 0) as [Hneg | Hpos].
      * destruct (connect_open_fails K be w Ho H0) as (E1 & _ & E3).
        { rewrite Hk. exact Hneg. }
        rewrite E1, E3, Hk. cbn [fst]. rewrite !flat_map_app. simpl.
        apply Z.ltb_lt in Hneg. rewrite Hneg. simpl.
        rewrite !app_nil_r. exact Hpair.
      * destruct (connect_opens K be w d e H0 Ho Hk Hpos) as (E1 & _ & E3).
        rewrite E1, E3. cbn [fst]. rewrite !flat_map_app. simpl.
        apply Z.ltb_ge in Hpos. rewrite Hpos. rewrite Hpair.
        unfold held. rewrite H0. simpl. now rewrite !app_nil_r.
    + destruct (connect_shares K be w) as (E1 & _ & E3); [lia | right; lia |].
      rewrite E1, E3. cbn [fst]. rewrite Hpair. f_equal.
      unfold held. destruct be as [f u o]. simpl in *.
      destruct (0 <? u) eqn:A; destruct (0 <? u + 1) eqn:B; auto;
        apply Z.ltb_lt in A || apply Z.ltb_ge in A;
        apply Z.ltb_lt in B || apply Z.ltb_ge in B; lia.
  - destruct (Z.eq_dec (IOMMUFDBackend.users be) 0) as [H0 | H0].
    { destruct (disconnect_idle be w H0) as (E1 & _ & _ & E3).
      rewrite E1, E3. exact Hpair. }
    assert (Hm : u32 (IOMMUFDBackend.users be - 1)
                 = IOMMUFDBackend.users be - 1)
      by (apply u32_small; unfold in_u32; lia).
    destruct (Z.eq_dec (IOMMUFDBackend.users be) 1) as [H1 | H1].
    + destruct (disconnect_closes be w) as (E1 & _ & E3);
        [lia | rewrite Hm; lia | exact Ho |].
      rewrite E1, E3, !flat_map_app. simpl. rewrite Hpair.
      unfold held. rewrite H1. simpl. now rewrite !app_nil_r.
    + destruct (disconnect_keeps be w) as (E1 & _ & _ & E3);
        [lia | left; rewrite Hm; lia |].
      rewrite E1, E3, Hm. rewrite Hpair. f_equal.
      unfold held. destruct be as [f u o]. simpl in *.
      destruct (0 <? u) eqn:A; destruct (0 <? u - 1) eqn:B; auto;
        apply Z.ltb_lt in A || apply Z.ltb_ge in A;
        apply Z.ltb_lt in B || apply Z.ltb_ge in B; lia.
Qed.

Lemma run_paired {P : Platform} (K : Kernel) (cs : list call) :
  paired (run K cs start).
Proof.
  induction cs as [|c cs IH] using rev_ind; [reflexivity|].
  rewrite run_snoc. apply step_paired; [apply run_self_owned_inv | exact IH].
Qed.

(** X6.  Opens and closes pair up over any sequence of connects and
    disconnects on a fresh handle, whatever the kernel answers: the
    descriptors closed so far are the descriptors opened so far, in the same
    order, followed only by the one the handle holds when it has users.  So
    no descriptor is closed twice or before it was opened, none is dropped
    without a close, and a close is never called on the unset value. *)
Theorem opens_and_closes_pair_up
    {P : Platform} (K : Kernel) (cs : list call) :
  let s := run K cs start in
  opened_fds (world s) = closed_fds (world s) ++ held (handle s) /\
  (IOMMUFDBackend.users (handle s) = 0 ->
   opened_fds (world s) = closed_fds (world s)) /\
  Forall (fun d => 0 <= d) (closed_fds (world s)) /\
  ~ In FD_UNSET (closed_fds (world s)).
Proof.
  intros s. pose proof (run_paired K cs) as Hp. fold s in Hp.
  unfold paired in Hp.
  assert (Hv : Forall (fun d => 0 <= d) (closed_fds (world s))).
  { pose proof (opened_fds_valid (world s)) as H. rewrite Hp in H.
    apply Forall_app in H. tauto. }
  split; [exact Hp|]. split; [|split; [exact Hv|]].
  - intros H0. rewrite Hp. unfold held. rewrite H0. simpl.
    apply app_nil_r.
  - intros Hin. rewrite Forall_forall in Hv. specialize (Hv _ Hin).
    unfold FD_UNSET in Hv. lia.
Qed.

Lemma opens_and_closes_pair_up_witness :
  IOMMUFDBackend.users
    (handle (run granting [Connect; Disconnect; Connect; Disconnect] start))
  = 0 /\
  closed_fds
    (world (run granting [Connect; Disconnect; Connect; Disconnect] start))
  = [3; 3].
Proof.
  split; [reflexivity|].
  rewrite <- (proj1 (proj2 (opens_and_closes_pair_up granting
                              [Connect; Disconnect; Connect; Disconnect]))
                eq_refl).
  reflexivity.
Defined.

(** ** Balanced sequences, whatever the kernel answers *)

Lemma users_le_connects {P : Platform} (K : Kernel) (N : nat) :
  IOMMUFDBackend.users (handle (run K (repeat Connect N) start))
  <= Z.of_nat N.
Proof.
  induction N as [|N IH]; [simpl; lia|].
  rewrite repeat_snoc, run_snoc.
  set (s := run K (repeat Connect N) start) in *.
  destruct (run_self_owned_inv K (repeat Connect N)) as (_ & Hu & _).
  fold s in Hu. unfold step. cbn [handle].
  destruct (connect_cases K (handle s) (world s) Hu)
    as [(_ & _ & E & _) | (_ & E)]; rewrite E; lia.
Qed.

Lemma disconnects_drain {P : Platform} (K : Kernel) (m : nat) (s : Sys) :
  self_owned_inv s ->
  IOMMUFDBackend.users (handle s) <= Z.of_nat m ->
  IOMMUFDBackend.users (handle (run K (repeat Disconnect m) s)) = 0.
Proof.
  revert s. induction m as [|m IH]; intros s Hinv Hle.
  - destruct Hinv as (_ & Hu & _). unfold in_u32 in Hu. simpl in *. lia.
  - simpl repeat. rewrite run_cons. apply IH.
    + now apply step_self_owned_inv.
    + destruct Hinv as (Ho & Hu & _). unfold in_u32 in Hu.
      unfold step. cbn [handle].
      destruct (Z.eq_dec (IOMMUFDBackend.users (handle s)) 0) as [H0 | H0].
      * destruct (disconnect_idle (handle s) (world s) H0) as (E & _).
        rewrite E. lia.
      * assert (Hm : u32 (IOMMUFDBackend.users (handle s) - 1)
                     = IOMMUFDBackend.users (handle s) - 1)
          by (apply u32_small; unfold in_u32; lia).
        destruct (Z.eq_dec (IOMMUFDBackend.users (handle s)) 1) as [H1 | H1].
        -- destruct (disconnect_closes (handle s) (world s)) as (E & _);
             [lia | rewrite Hm; lia | exact Ho |].
           rewrite E. simpl. lia.
        -- destruct (disconnect_keeps (handle s) (world s)) as (E & _);
             [lia | left; rewrite Hm; lia |].
           rewrite E, Hm. simpl. lia.
Qed.

(** X5.  N connects followed by at least N disconnects on a fresh handle
    leave it as it was created, for every N and whatever the kernel answers
    (opens that fail, connects refused at the maximum of the counter):
    the counter is 0, the descriptor is unset, no descriptor is left open in
    the process, and every descriptor that was opened has been closed. *)
Theorem balanced_calls_leave_nothing_open
    {P : Platform} (K : Kernel) (N M : nat) :
  (N <= M)%nat ->
  let s := run K (repeat Connect N ++ repeat Disconnect M) start in
  handle s = iommufd_backend_init /\
  w_fds (world s) = [] /\
  opened_fds (world s) = closed_fds (world s).
Proof.
  intros HNM s.
  pose proof (run_self_owned_inv K (repeat Connect N ++ repeat Disconnect M))
    as Hinv.
  pose proof (run_paired K (repeat Connect N ++ repeat Disconnect M)) as Hp.
  fold s in Hinv, Hp. unfold paired in Hp.
  assert (H0 : IOMMUFDBackend.users (handle s) = 0).
  { subst s. rewrite run_app. apply disconnects_drain.
    - apply run_self_owned_inv.
    - pose proof (users_le_connects K N). lia. }
  destruct Hinv as (Ho & _ & Hz & _). destruct (Hz H0) as [Hfd Hfds].
  split; [|split; [exact Hfds|]].
  - destruct (handle s) as [f u o]. simpl in *. subst. reflexivity.
  - rewrite Hp. unfold held. rewrite H0. simpl. apply app_nil_r.
Qed.

Lemma balanced_calls_leave_nothing_open_witness :
  (2 <= 3)%nat /\
  handle (run refusing (repeat Connect 2 ++ repeat Disconnect 3) start)
  = iommufd_backend_init /\
  w_fds (world (run granting (repeat Connect 2 ++ repeat Disconnect 3) start))
  = [].
Proof.
  assert (H : (2 <= 3)%nat) by lia.
  split; [exact H|]. split.
  - exact (proj1 (balanced_calls_leave_nothing_open refusing 2 3 H)).
  - exact (proj1 (proj2 (balanced_calls_leave_nothing_open granting 2 3 H))).
Defined.

(** ** Destruction, again *)

(** X7.  Destruction does not look at the counter: the counter and the
    ownership of the handle are as before, also when users remain, and a
    self-owned handle is left with its descriptor unset whatever the counter
    says.  Destroying a second time changes neither the handle nor the
    descriptors open in the process. *)
Theorem finalize_ignores_users
    {P : Platform} (be : IOMMUFDBackend.t) (w : World) :
  fds_valid w ->
  let r1 := iommufd_backend_finalize be w in
  let r2 := iommufd_backend_finalize (fst r1) (snd r1) in
  IOMMUFDBackend.users (fst r1) = IOMMUFDBackend.users be /\
  IOMMUFDBackend.owned (fst r1) = IOMMUFDBackend.owned be /\
  (IOMMUFDBackend.owned be = true ->
   IOMMUFDBackend.fd (fst r1) = FD_UNSET /\
   ~ In (IOMMUFDBackend.fd be) (w_fds (snd r1))) /\
  fst r2 = fst r1 /\
  w_fds (snd r2) = w_fds (snd r1).
Proof.
  intros Hv r1 r2. unfold fds_valid in Hv. rewrite Forall_forall in Hv.
  destruct (IOMMUFDBackend.owned be) eqn:Ho.
  - destruct (finalize_owned be w Ho) as (E1 & E2 & _). fold r1 in E1, E2.
    assert (Ho1 : IOMMUFDBackend.owned (fst r1) = true)
      by (rewrite E1; destruct be; exact Ho).
    destruct (finalize_owned (fst r1) (snd r1) Ho1) as (F1 & F2 & _).
    fold r2 in F1, F2. rewrite F1, F2, E1, E2.
    split; [destruct be; reflexivity|].
    split; [destruct be; exact Ho|].
    split; [intros _; split; [reflexivity | apply remove_In]|].
    split; [destruct be; reflexivity|].
    apply notin_remove. simpl. intros Hin. apply in_remove in Hin.
    destruct Hin as [Hin _]. specialize (Hv _ Hin). lia.
  - subst r2 r1. rewrite (finalize_borrowed be w Ho). simpl.
    rewrite (finalize_borrowed be w Ho). simpl.
    split; [reflexivity|]. split; [exact Ho|].
    split; [discriminate|]. split; reflexivity.
Qed.

Lemma finalize_ignores_users_witness :
  let be := IOMMUFDBackend.mk 3 2 true in
  let w := mkWorld 0 [3; 4] [] in
  fds_valid w /\
  fst (iommufd_backend_finalize be w) = IOMMUFDBackend.mk (-1) 2 true /\
  IOMMUFDBackend.users (fst (iommufd_backend_finalize be w)) = 2.
Proof.
  intros be w.
  assert (H : fds_valid w).
  { unfold fds_valid. simpl. repeat constructor; discriminate. }
  split; [exact H|]. split; [reflexivity|].
  exact (proj1 (finalize_ignores_users be w H)).
Defined.

(** * Further properties of the request wrappers *)

Ltac one_request_tac K w fd c arg :=
  unfold one_request;
  exists arg, (k_status K w fd c arg);
  wrapper;
  destruct (c_true (k_status K w fd c arg));
  io; rewrite ?filter_app; simpl; rewrite ?app_nil_r; auto.

Section OneRequest.
Context {P : Platform} (K : Kernel).
Variables (be : IOMMUFDBackend.t) (w : World).

Lemma alloc_ioas_one_request (fd ioas0 : Z) :
  one_request (iommufd_backend_alloc_ioas K fd ioas0) fd IOMMU_IOAS_ALLOC w.
Proof.
  unfold iommufd_backend_alloc_ioas.
  one_request_tac K w fd IOMMU_IOAS_ALLOC alloc_ioas_request.
Qed.

Lemma free_id_one_request (fd id : Z) :
  one_request (iommufd_backend_free_id K fd id) fd IOMMU_DESTROY w.
Proof.
  unfold iommufd_backend_free_id.
  one_request_tac K w fd IOMMU_DESTROY (destroy_request id).
Qed.

Lemma unmap_dma_one_request (ioas iova size : Z) :
  one_request (iommufd_backend_unmap_dma K be ioas iova size)
              (IOMMUFDBackend.fd be) IOMMU_IOAS_UNMAP w.
Proof.
  unfold iommufd_backend_unmap_dma.
  one_request_tac K w (IOMMUFDBackend.fd be) IOMMU_IOAS_UNMAP
                  (unmap_request ioas iova size).
Qed.

Lemma map_dma_one_request (ioas iova size vaddr : Z) (readonly : bool) :
  one_request (iommufd_backend_map_dma K be ioas iova size vaddr readonly)
              (IOMMUFDBackend.fd be) IOMMU_IOAS_MAP w.
Proof.
  unfold iommufd_backend_map_dma.
  one_request_tac K w (IOMMUFDBackend.fd be) IOMMU_IOAS_MAP
                  (map_request ioas iova size vaddr readonly).
Qed.

Lemma copy_dma_one_request (src_ioas dst_ioas iova size : Z)
    (readonly : bool) :
  one_request (iommufd_backend_copy_dma K be src_ioas dst_ioas iova size
                 readonly)
              (IOMMUFDBackend.fd be) IOMMU_IOAS_COPY w.
Proof.
  unfold iommufd_backend_copy_dma.
  one_request_tac K w (IOMMUFDBackend.fd be) IOMMU_IOAS_COPY
                  (copy_request src_ioas dst_ioas iova size readonly).
Qed.

Lemma alloc_hwpt_one_request
    (fd flags dev_id hwpt_type parent data_type data data_len out0 : Z) :
  one_request (iommufd_backend_alloc_hwpt K fd flags dev_id hwpt_type parent
                 data_type data data_len out0)
              fd IOMMU_ALLOC_HWPT w.
Proof.
  unfold iommufd_backend_alloc_hwpt.
  one_request_tac K w fd IOMMU_ALLOC_HWPT
    (alloc_hwpt_request flags dev_id hwpt_type parent data_type data data_len).
Qed.

Lemma add_hwpt_event_one_request (fd dev_id hwpt eventfd out0 : Z) :
  one_request (iommufd_backend_add_hwpt_event K fd dev_id hwpt eventfd out0)
              fd IOMMU_ADD_HWPT_EVENT w.
Proof.
  unfold iommufd_backend_add_hwpt_event.
  one_request_tac K w fd IOMMU_ADD_HWPT_EVENT
                  (add_hwpt_event_request dev_id hwpt eventfd).
Qed.

Lemma alloc_pasid_one_request (fd min max : Z) (identical : bool)
    (pasid0 : Z) :
  one_request (iommufd_backend_alloc_pasid K fd min max identical pasid0)
              fd IOMMU_ALLOC_PASID w.
Proof.
  unfold iommufd_backend_alloc_pasid.
  one_request_tac K w fd IOMMU_ALLOC_PASID
                  (alloc_pasid_request min max identical pasid0).
Qed.

Lemma free_pasid_one_request (fd pasid : Z) :
  one_request (iommufd_backend_free_pasid K fd pasid) fd IOMMU_FREE_PASID w.
Proof.
  unfold iommufd_backend_free_pasid.
  one_request_tac K w fd IOMMU_FREE_PASID
    (iommu_free_pasid.mk (sizeof IOMMU_FREE_PASID) 0 pasid).
Qed.

End OneRequest.

Lemma get_ioas_one_request {P : Platform} (K : Kernel)
    (be : IOMMUFDBackend.t) (ioas0 : Z) (w : World) :
  one_request (iommufd_backend_get_ioas K be ioas0)
              (IOMMUFDBackend.fd be) IOMMU_IOAS_ALLOC w.
Proof.
  destruct (alloc_ioas_one_request K w (IOMMUFDBackend.fd be) ioas0)
    as (arg & res & E1 & E2 & E3).
  exists arg, res. unfold iommufd_backend_get_ioas, bind.
  destruct (iommufd_backend_alloc_ioas K (IOMMUFDBackend.fd be) ioas0 w)
    as [[r i] w'].
  simpl in E1, E2, E3. unfold requests, fd_calls in *. io.
  rewrite !filter_app. simpl. rewrite !app_nil_r. auto.
Qed.

Lemma put_ioas_one_request {P : Platform} (K : Kernel)
    (be : IOMMUFDBackend.t) (ioas : Z) (w : World) :
  one_request (iommufd_backend_put_ioas K be ioas)
              (IOMMUFDBackend.fd be) IOMMU_DESTROY w.
Proof.
  set (w' := snd (trace "iommufd_backend_put_ioas"
                        [IOMMUFDBackend.fd be; ioas] w)).
  destruct (free_id_one_request K w' (IOMMUFDBackend.fd be) ioas)
    as (arg & res & E1 & E2 & E3).
  exists arg, res.
  change (iommufd_backend_put_ioas K be ioas w)
    with (iommufd_backend_free_id K (IOMMUFDBackend.fd be) ioas w').
  rewrite E1, E2, E3. subst w'. unfold requests, fd_calls. io.
  rewrite !filter_app. simpl. rewrite !app_nil_r. auto.
Qed.

(** X8.  Every request wrapper sends exactly one request to the kernel, of
    its own request code and on the descriptor it was given (the one of the
    handle, for the wrappers that take a handle), whether the kernel grants
    or refuses: a refused request is not sent again.  No wrapper opens or
    closes a descriptor. *)
Theorem wrappers_send_one_request
    {P : Platform} (K : Kernel) (be : IOMMUFDBackend.t) (w : World)
    (fd id ioas src_ioas dst_ioas iova size vaddr : Z) (readonly : bool)
    (flags dev_id hwpt_type parent data_type data data_len hwpt eventfd : Z)
    (min max pasid out0 : Z) (identical : bool) :
  let bfd := IOMMUFDBackend.fd be in
  one_request (iommufd_backend_get_ioas K be out0) bfd IOMMU_IOAS_ALLOC w /\
  one_request (iommufd_backend_put_ioas K be id) bfd IOMMU_DESTROY w /\
  one_request (iommufd_backend_free_id K fd id) fd IOMMU_DESTROY w /\
  one_request (iommufd_backend_unmap_dma K be ioas iova size)
              bfd IOMMU_IOAS_UNMAP w /\
  one_request (iommufd_backend_map_dma K be ioas iova size vaddr readonly)
              bfd IOMMU_IOAS_MAP w /\
  one_request (iommufd_backend_copy_dma K be src_ioas dst_ioas iova size
                 readonly)
              bfd IOMMU_IOAS_COPY w /\
  one_request (iommufd_backend_alloc_hwpt K fd flags dev_id hwpt_type parent
                 data_type data data_len out0)
              fd IOMMU_ALLOC_HWPT w /\
  one_request (iommufd_backend_add_hwpt_event K fd dev_id hwpt eventfd out0)
              fd IOMMU_ADD_HWPT_EVENT w /\
  one_request (iommufd_backend_alloc_pasid K fd min max identical pasid)
              fd IOMMU_ALLOC_PASID w /\
  one_request (iommufd_backend_free_pasid K fd pasid) fd IOMMU_FREE_PASID w.
Proof.
  intros bfd.
  split; [apply get_ioas_one_request|].
  split; [apply put_ioas_one_request|].
  split; [apply free_id_one_request|].
  split; [apply unmap_dma_one_request|].
  split; [apply map_dma_one_request|].
  split; [apply copy_dma_one_request|].
  split; [apply alloc_hwpt_one_request|].
  split; [apply add_hwpt_event_one_request|].
  split; [apply alloc_pasid_one_request | apply free_pasid_one_request].
Qed.


Section Reports.
Context {P : Platform} (K : Kernel).
Variables (be : IOMMUFDBackend.t) (w : World).










End Reports.


Lemma u64_s64_id (v : Z) : 0 <= v < 2 ^ 64 -> u64 (s64 v) = v.
Proof.
  intros H. unfold u64, s64.
  destruct (Z_lt_le_dec v (2 ^ 63)) as [Hlo | Hhi].
  - rewrite (Z.mod_small (v + 2 ^ 63)) by lia.
    replace (v + 2 ^ 63 - 2 ^ 63) with v by lia.
    apply Z.mod_small. lia.
  - replace (v + 2 ^ 63) with ((v - 2 ^ 63) + 1 * 2 ^ 64) by lia.
    rewrite Z.mod_add by lia.
    rewrite (Z.mod_small (v - 2 ^ 63)) by lia.
    replace (v - 2 ^ 63 - 2 ^ 63) with (v + (-1) * 2 ^ 64) by lia.
    rewrite Z.mod_add by lia. apply Z.mod_small. lia.
Qed.

Lemma u64_range (v : Z) : 0 <= u64 v < 2 ^ 64.
Proof. unfold u64. apply Z.mod_pos_bound. lia. Qed.

Lemma u64_s64 (v : Z) : u64 (s64 v) = u64 v.
Proof.
  unfold u64, s64. rewrite Zminus_mod_idemp_l. f_equal. lia.
Qed.




(** X11.  The records carry what the caller passed, without validation.
    The host address of map and the payload pointer of the page-table
    allocation go through the casts of the source unchanged: the field is
    the pointer modulo 2^64, which is the pointer itself for every 64-bit
    address.  The ids, the IOVA and the length of unmap, map and copy are
    copied as given, a length of 0 included, and the reserved fields are
    0. *)
Theorem records_carry_arguments
    {P : Platform} (ioas src_ioas dst_ioas iova size vaddr : Z)
    (readonly : bool)
    (flags dev_id hwpt_type parent data_type data data_len : Z) :
  let u := unmap_request ioas iova size in
  let m := map_request ioas iova size vaddr readonly in
  let c := copy_request src_ioas dst_ioas iova size readonly in
  let h := alloc_hwpt_request flags dev_id hwpt_type parent data_type data
             data_len in
  (iommu_ioas_map.user_va m = u64 vaddr /\
   0 <= iommu_ioas_map.user_va m < 2 ^ 64 /\
   (0 <= vaddr < 2 ^ 64 -> iommu_ioas_map.user_va m = vaddr)) /\
  (iommu_alloc_hwpt.data_uptr h = u64 data /\
   (0 <= data < 2 ^ 64 -> iommu_alloc_hwpt.data_uptr h = data)) /\
  (iommu_ioas_unmap.ioas_id u = ioas /\ iommu_ioas_unmap.iova u = iova /\
   iommu_ioas_unmap.length u = size) /\
  (iommu_ioas_map.ioas_id m = ioas /\ iommu_ioas_map.length m = size /\
   iommu_ioas_map.__reserved m = 0) /\
  (iommu_ioas_copy.src_ioas_id c = src_ioas /\
   iommu_ioas_copy.dst_ioas_id c = dst_ioas /\
   iommu_ioas_copy.length c = size) /\
  (iommu_alloc_hwpt.flags h = flags /\ iommu_alloc_hwpt.dev_id h = dev_id /\
   iommu_alloc_hwpt.hwpt_type h = hwpt_type /\
   iommu_alloc_hwpt.parent_id h = parent /\
   iommu_alloc_hwpt.data_type h = data_type /\
   iommu_alloc_hwpt.data_len h = data_len /\
   iommu_alloc_hwpt.reserved h = 0).
Proof.
  intros u m c h.
  assert (Hm : iommu_ioas_map.user_va m = u64 vaddr).
  { subst m. unfold map_request. destruct readonly; simpl; apply u64_s64. }
  split.
  { split; [exact Hm|]. split.
    - rewrite Hm. apply u64_range.
    - intros Hv. rewrite Hm. unfold u64. apply Z.mod_small. exact Hv. }
  split.
  { split; [reflexivity|]. intros Hd. simpl. unfold u64.
    apply Z.mod_small. exact Hd. }
  split; [repeat split|].
  split; [subst m; unfold map_request; destruct readonly; repeat split|].
  split; [subst c; unfold copy_request; destruct readonly; repeat split|].
  repeat split.
Qed.

Lemma records_carry_arguments_witness :
  0 <= 18446744073709547520 < 2 ^ 64 /\
  iommu_ioas_map.user_va (map_request 1 4096 0 18446744073709547520 false)
  = 18446744073709547520.
Proof.
  assert (H : 0 <= 18446744073709547520 < 2 ^ 64) by lia.
  split; [exact H|].
  exact (proj2 (proj2 (proj1 (records_carry_arguments
           1 1 2 4096 0 18446744073709547520 false 0 7 1 2 0 0 0))) H).
Defined.

(** * The handle over its whole life *)

(** X12.  Once a descriptor has been set from outside, the handle never
    closes anything: after any sequence of connects and disconnects and the
    destruction of the handle, the handle holds the descriptor that was set,
    and the descriptors open in the process and the calls made on
    descriptors are what they were before the descriptor was set.  In
    particular a descriptor that the handle had opened itself before is
    still open. *)
Theorem injected_descriptor_survives
    {P : Platform} (K : Kernel) (be : IOMMUFDBackend.t) (str : string)
    (w : World) (cs : list call) :
  fst (k_monitor_fd K (w_log w) str) <> -1 ->
  let r := iommufd_backend_set_fd K be str w in
  let s := run K cs (mkSys (fst (fst r)) (snd r) []) in
  let f := iommufd_backend_finalize (handle s) (world s) in
  IOMMUFDBackend.fd (fst f) = fst (k_monitor_fd K (w_log w) str) /\
  w_fds (snd f) = w_fds w /\
  fd_calls (snd f) = fd_calls w /\
  (forall d : Z, In d (w_fds w) -> In d (w_fds (snd f))).
Proof.
  intros Hfd r s f.
  assert (Hr : r = ((IOMMUFDBackend.mk (fst (k_monitor_fd K (w_log w) str))
                       (IOMMUFDBackend.users be) false,
                     snd (k_monitor_fd K (w_log w) str)),
                    mkWorld (w_errno w) (w_fds w)
                      (w_log w
                       ++ [EvTrace "iommu_backend_set_fd"
                             [fst (k_monitor_fd K (w_log w) str)]]))).
  { subst r. rewrite set_fd_result. cbv zeta.
    apply Z.eqb_neq in Hfd. now rewrite Hfd. }
  assert (Ho : IOMMUFDBackend.owned (handle (mkSys (fst (fst r)) (snd r) []))
               = false) by (rewrite Hr; reflexivity).
  destruct (run_borrowed K cs (mkSys (fst (fst r)) (snd r) []) Ho)
    as (E1 & E2 & E3 & E4).
  fold s in E1, E2, E3, E4. cbn [handle world] in E2, E3, E4.
  subst f. rewrite (finalize_borrowed (handle s) (world s) E1). cbn [fst snd].
  rewrite E2, E3, E4, Hr. cbn [fst snd]. unfold fd_calls. simpl.
  rewrite filter_app. simpl. rewrite app_nil_r. auto.
Qed.

Lemma injected_descriptor_survives_witness :
  let be := IOMMUFDBackend.mk 3 1 true in
  let w := mkWorld 0 [3] [] in
  let cs := [Disconnect; Connect; Disconnect] in
  fst (k_monitor_fd granting (w_log w) "remote") <> -1 /\
  w_fds (snd (iommufd_backend_finalize
                (handle (run granting cs
                           (mkSys (fst (fst (iommufd_backend_set_fd granting
                                               be "remote" w)))
                                  (snd (iommufd_backend_set_fd granting
                                          be "remote" w)) [])))
                (world (run granting cs
                          (mkSys (fst (fst (iommufd_backend_set_fd granting
                                              be "remote" w)))
                                 (snd (iommufd_backend_set_fd granting
                                         be "remote" w)) [])))))
  = [3].
Proof.
  intros be w cs.
  assert (H : fst (k_monitor_fd granting (w_log w) "remote") <> -1)
    by discriminate.
  split; [exact H|].
  exact (proj1 (proj2 (injected_descriptor_survives granting be "remote" w
                         cs H))).
Defined.

(** X13.  A fresh handle that is never given a descriptor from outside
    keeps, over any sequence of connects and disconnects and whatever the
    kernel answers: it stays self-owned, its counter stays within the range
    of [uint32_t], and it has the device open exactly when it has users.
    Without users its descriptor is unset and nothing is open; with users
    its descriptor is the one open descriptor, so the device is never open
    twice. *)
Theorem device_open_iff_users
    {P : Platform} (K : Kernel) (cs : list call) :
  let s := run K cs start in
  let be := handle s in
  IOMMUFDBackend.owned be = true /\
  in_u32 (IOMMUFDBackend.users be) /\
  (IOMMUFDBackend.users be = 0 <->
   IOMMUFDBackend.fd be = FD_UNSET /\ w_fds (world s) = []) /\
  (0 < IOMMUFDBackend.users be <->
   w_fds (world s) = [IOMMUFDBackend.fd be]) /\
  (List.length (w_fds (world s)) <= 1)%nat.
Proof.
  intros s be. destruct (run_self_owned_inv K cs) as (Ho & Hu & Hz & Hp).
  fold s in Ho, Hu, Hz, Hp. fold be in Ho, Hu, Hz, Hp.
  unfold in_u32 in Hu.
  split; [exact Ho|]. split; [exact Hu|].
  assert (Hcase : IOMMUFDBackend.users be = 0 \/ 0 < IOMMUFDBackend.users be)
    by lia.
  split; [|split].
  - split; [exact Hz|]. intros [_ Hnil].
    destruct Hcase as [H | H]; [exact H|].
    destruct (Hp H) as [_ Hone]. rewrite Hone in Hnil. discriminate Hnil.
  - split; [intros H; exact (proj2 (Hp H))|]. intros Hone.
    destruct Hcase as [H | H]; [|exact H].
    destruct (Hz H) as [_ Hnil]. rewrite Hnil in Hone. discriminate Hone.
  - destruct Hcase as [H | H].
    + destruct (Hz H) as [_ Hnil]. rewrite Hnil. simpl. lia.
    + destruct (Hp H) as [_ Hone]. rewrite Hone. simpl. lia.
Qed.
